(** * NIST CSF 2.0 control extractor: a shallow embedding of [main.py]

    The program loads a JSON catalog, keeps the controls whose [controlId]
    is in a requested list, annotates the catalog title and description,
    and writes the result.  The embedding follows the Python text of
    [extract_controls_by_id] statement by statement.

    Python dictionaries and lists are mutable objects reached through
    references, and [data.copy()] is a shallow copy: the copy and the
    original share the nested [catalog] object.  The store of objects is
    therefore explicit, and a Python value is either a scalar or a
    reference into the store. *)

From Stdlib Require Import Ascii String DecimalString.
From stdpp Require Import gmap strings list fin_maps.

Local Open Scope string_scope.

(** ** Values, objects and the store *)

Abbreviation loc := positive.

(** What [json.load] can produce: scalars, and references to the
    dictionaries and lists of the store.  The program never inspects a
    number, so integers stand for all of them. *)
Inductive value : Type :=
  | VNone
  | VBool (b : bool)
  | VNum (n : Z)
  | VStr (s : string)
  | VRef (l : loc).

Inductive obj : Type :=
  | ODict (m : gmap string value)
  | OList (xs : list value).

Abbreviation heap := (gmap loc obj).

(** The exceptions the interpreter raises on the paths of the program.
    [ValueError] is the one the program raises itself (the structure
    error).  [Dangling] is not a Python exception: it marks a reference
    that the store does not hold, which no Python state contains. *)
Inductive exn : Type :=
  | ValueError
  | TypeError
  | AttributeError
  | KeyError
  | Dangling.

Inductive result (A : Type) : Type :=
  | Ok (a : A)
  | Err (e : exn).
Arguments Ok {A} a.
Arguments Err {A} e.

(** What the function prints: the warning carries the set whose sorted
    elements appear in the message. *)
Inductive event : Type :=
  | Warning (missing_ids : gset string).

Record state : Type := State { st_heap : heap; st_out : list event }.

(** ** A state and exception monad

    A raised exception keeps the state reached so far: mutations done
    before the [raise] stay done. *)
Definition py (A : Type) : Type := state → state * result A.

Definition py_ret {A} (a : A) : py A := λ st, (st, Ok a).

Definition py_bind {A B} (m : py A) (k : A → py B) : py B :=
  λ st, match m st with
        | (st', Ok a) => k a st'
        | (st', Err e) => (st', Err e)
        end.

Definition raise {A} (e : exn) : py A := λ st, (st, Err e).

Definition read {A} (f : heap → result A) : py A :=
  λ st, (st, f (st_heap st)).

Definition print (ev : event) : py unit :=
  λ st, (State (st_heap st) (st_out st ++ [ev]), Ok tt).

Declare Scope py_scope.
Delimit Scope py_scope with py.
Notation "x <- m ;; k" := (py_bind m (λ x, k))
  (at level 100, m at next level, right associativity) : py_scope.
Notation "m ;;; k" := (py_bind m (λ _, k))
  (at level 100, right associativity) : py_scope.

(** ** Python primitives used by the program *)

Fixpoint is_substring (p s : string) : bool :=
  if String.prefix p s then true
  else match s with
       | EmptyString => false
       | String _ s' => is_substring p s'
       end.

(** [v == key] for a string [key]: a string only equals a string. *)
Definition eq_str (key : string) (v : value) : bool :=
  match v with
  | VStr s => bool_decide (s = key)
  | _ => false
  end.

(** [key in v] *)
Definition py_contains (key : string) (v : value) (h : heap) : result bool :=
  match v with
  | VStr s => Ok (is_substring key s)
  | VRef l =>
      match h !! l with
      | Some (ODict m) => Ok (bool_decide (is_Some (m !! key)))
      | Some (OList xs) => Ok (existsb (eq_str key) xs)
      | None => Err Dangling
      end
  | _ => Err TypeError
  end.

(** [v[key]] for a string [key] *)
Definition py_getitem (v : value) (key : string) (h : heap) : result value :=
  match v with
  | VRef l =>
      match h !! l with
      | Some (ODict m) =>
          match m !! key with
          | Some x => Ok x
          | None => Err KeyError
          end
      | Some (OList _) => Err TypeError
      | None => Err Dangling
      end
  | _ => Err TypeError
  end.

(** [v.get(key, dflt)]: only dictionaries have the method. *)
Definition py_get (v : value) (key : string) (dflt : value) (h : heap)
  : result value :=
  match v with
  | VRef l =>
      match h !! l with
      | Some (ODict m) => Ok (default dflt (m !! key))
      | Some (OList _) => Err AttributeError
      | None => Err Dangling
      end
  | _ => Err AttributeError
  end.

(** What [for x in v] iterates over.  A dictionary yields its keys and a
    string its characters. *)
Fixpoint chars (s : string) : list value :=
  match s with
  | EmptyString => []
  | String a s' => VStr (String a EmptyString) :: chars s'
  end.

Definition py_iter (v : value) (h : heap) : result (list value) :=
  match v with
  | VStr s => Ok (chars s)
  | VRef l =>
      match h !! l with
      | Some (OList xs) => Ok xs
      | Some (ODict m) => Ok (VStr <$> (map_to_list m).*1)
      | None => Err Dangling
      end
  | _ => Err TypeError
  end.

(** [x in control_ids] for the list of strings [control_ids]: Python
    compares with [==], and a string is equal to strings only. *)
Definition py_in (x : value) (control_ids : list string) : bool :=
  match x with
  | VStr s => bool_decide (s ∈ control_ids)
  | _ => false
  end.

(** A new object in the store. *)
Definition alloc (o : obj) : py value :=
  λ st, let l := fresh (dom (st_heap st)) in
        (State (<[l := o]> (st_heap st)) (st_out st), Ok (VRef l)).

(** [v.copy()]: dictionaries and lists have the method; the copy is
    shallow, its entries are the same values (the same references). *)
Definition py_copy (v : value) : py value :=
  λ st, match v with
        | VRef l =>
            match st_heap st !! l with
            | Some o => alloc o st
            | None => (st, Err Dangling)
            end
        | _ => (st, Err AttributeError)
        end.

(** [target[key] = x] for a string [key] *)
Definition py_setitem (target : value) (key : string) (x : value) : py unit :=
  λ st, match target with
        | VRef l =>
            match st_heap st !! l with
            | Some (ODict m) =>
                (State (<[l := ODict (<[key := x]> m)]> (st_heap st)) (st_out st),
                 Ok tt)
            | Some (OList _) => (st, Err TypeError)
            | None => (st, Err Dangling)
            end
        | _ => (st, Err TypeError)
        end.

(** [str(n)] for a length *)
Definition py_str_nat (n : nat) : string :=
  NilEmpty.string_of_uint (Nat.to_uint n).

Definition newline : string := String "010"%char EmptyString.

Section Extractor.

(** How an f-string renders a value that is not a string ([None], a
    number, the [repr] of a list).  No property below depends on it. *)
Variable render : heap → value → string.

Definition py_format (v : value) (h : heap) : result string :=
  match v with
  | VStr s => Ok s
  | _ => Ok (render h v)
  end.

Local Open Scope py_scope.

(** The [for control in original_controls] loop (lines 62-65), from the
    state [(filtered_controls, found_ids)] of its two accumulators.  Both
    are local to the call while the loop runs, so they are carried as
    values; the list enters the store when line 73 stores it in the
    catalog.  Only strings are ever added to [found_ids]: a value that is
    [in control_ids] is a string. *)
Fixpoint filter_loop (control_ids : list string) (controls : list value)
    (filtered_controls : list value) (found_ids : gset string)
  : py (list value * gset string) :=
  match controls with
  | [] => py_ret (filtered_controls, found_ids)
  | control :: rest =>
      cid <- read (py_get control "controlId" VNone) ;;
      if py_in cid control_ids then
        cid' <- read (py_get control "controlId" VNone) ;;
        filter_loop control_ids rest
          (filtered_controls ++ [control])
          (match cid' with VStr s => {[ s ]} ∪ found_ids | _ => found_ids end)
      else
        filter_loop control_ids rest filtered_controls found_ids
  end.

Definition extract_controls_by_id (data : value) (control_ids : list string)
  : py value :=
  (* line 50 *)
  filtered_data <- py_copy data ;;
  (* lines 53-54: [or] evaluates its second operand only when needed *)
  has_catalog <- read (py_contains "catalog" data) ;;
  missing <-
    (if negb has_catalog then py_ret true
     else
       catalog <- read (py_getitem data "catalog") ;;
       has_controls <- read (py_contains "securityControls" catalog) ;;
       py_ret (negb has_controls)) ;;
  if (missing : bool) then raise ValueError
  else
    (* line 56 *)
    catalog <- read (py_getitem data "catalog") ;;
    original_controls <- read (py_getitem catalog "securityControls") ;;
    (* lines 59-65 *)
    controls <- read (py_iter original_controls) ;;
    acc <- filter_loop control_ids controls [] ∅ ;;
    let filtered_controls := acc.1 in
    let found_ids := acc.2 in
    (* lines 68-70 *)
    let missing_ids : gset string := list_to_set control_ids ∖ found_ids in
    (if bool_decide (missing_ids = ∅) then py_ret tt
     else print (Warning missing_ids)) ;;;
    (* line 73 *)
    filtered_list <- alloc (OList filtered_controls) ;;
    catalog <- read (py_getitem filtered_data "catalog") ;;
    py_setitem catalog "securityControls" filtered_list ;;;
    (* line 76 *)
    has_catalog <- read (py_contains "catalog" filtered_data) ;;
    (if (has_catalog : bool) then
       let n := py_str_nat (length filtered_controls) in
       (* lines 77-78 *)
       catalog <- read (py_getitem filtered_data "catalog") ;;
       original_title <- read (py_get catalog "title" (VStr "NIST CSF 2.0")) ;;
       title <- read (py_format original_title) ;;
       catalog <- read (py_getitem filtered_data "catalog") ;;
       py_setitem catalog "title"
         (VStr (title ++ " (Filtered - " ++ n ++ " controls)")) ;;;
       (* lines 81-86 *)
       catalog <- read (py_getitem filtered_data "catalog") ;;
       original_description <- read (py_get catalog "description" (VStr "")) ;;
       description <- read (py_format original_description) ;;
       catalog <- read (py_getitem filtered_data "catalog") ;;
       py_setitem catalog "description"
         (VStr (description ++ newline ++ newline
                ++ "<p><strong>Note:</strong> This is a filtered version containing only "
                ++ n
                ++ " specific controls extracted from the original framework.</p>"))
     else py_ret tt) ;;;
    (* line 88 *)
    py_ret filtered_data.

End Extractor.

(** ** The command line

    The namespace that [argparse] hands to [main].  [--controls] is
    declared with [nargs='*'] and no default: the attribute is [None]
    when the flag is absent and the list of its arguments (empty when
    there are none) when it is present. *)
Record Args : Type := {
  input : string;
  output : string;
  controls : option (list string);
  summary : bool
}.

Definition TARGET_CONTROL_IDS : list string :=
  [ "ID.AM-03"; "ID.AM-07"; "ID.AM-08"; "ID.IM-01"; "ID.IM-02"; "ID.IM-03";
    "ID.RA-01"; "ID.RA-07"; "PR.AA-05"; "PR.DS-01"; "PR.DS-02"; "PR.DS-10";
    "PR.IR-01"; "PR.PS-01"; "PR.PS-05"; "DE.AE-02"; "DE.AE-03"; "DE.CM-01";
    "DE.CM-02"; "DE.CM-03"; "DE.CM-06"; "DE.CM-09" ].

(** [control_ids = args.controls if args.controls else TARGET_CONTROL_IDS]:
    [None] and the empty list are both false. *)
Definition main_control_ids (args : Args) : list string :=
  match controls args with
  | Some (x :: l) => x :: l
  | Some [] => TARGET_CONTROL_IDS
  | None => TARGET_CONTROL_IDS
  end.

(** ** Reading a document through the store *)

Definition dict_at (h : heap) (v : value) : option (gmap string value) :=
  match v with
  | VRef l => match h !! l with Some (ODict m) => Some m | _ => None end
  | _ => None
  end.

Definition list_at (h : heap) (v : value) : option (list value) :=
  match v with
  | VRef l => match h !! l with Some (OList xs) => Some xs | _ => None end
  | _ => None
  end.

(** [doc['catalog']], when [doc] is a mapping with a mapping under that key *)
Definition catalog_of (h : heap) (doc : value) : option (gmap string value) :=
  m ← dict_at h doc; c ← m !! "catalog"; dict_at h c.

(** [doc['catalog']['securityControls']], when it is a list *)
Definition controls_of (h : heap) (doc : value) : option (list value) :=
  cm ← catalog_of h doc; sc ← cm !! "securityControls"; list_at h sc.

Definition is_control (h : heap) (v : value) : bool :=
  match dict_at h v with Some _ => true | None => false end.

(** The documents of the data model: a mapping whose [catalog] is a
    mapping whose [securityControls] is a list of mappings. *)
Definition valid_document (h : heap) (doc : value) : bool :=
  match controls_of h doc with
  | Some cs => forallb (is_control h) cs
  | None => false
  end.

(** [control.get('controlId')] of a control record *)
Definition control_id (h : heap) (control : value) : option value :=
  m ← dict_at h control; Some (default VNone (m !! "controlId")).

(** The test of the loop: [control.get('controlId') in control_ids] *)
Definition selected (h : heap) (control_ids : list string) (control : value)
  : bool :=
  match control_id h control with
  | Some x => py_in x control_ids
  | None => false
  end.

(** The strings among the identifiers of a list of controls *)
Definition id_strings (h : heap) (cs : list value) : list string :=
  omap (λ v, match control_id h v with Some (VStr s) => Some s | _ => None end) cs.

(** The text an f-string produces for a value *)
Definition text_of (render : heap → value → string) (h : heap) (v : value)
  : string :=
  match v with VStr s => s | _ => render h v end.

Definition title_suffix (n : nat) : string :=
  " (Filtered - " ++ py_str_nat n ++ " controls)".

Definition description_note (n : nat) : string :=
  "<p><strong>Note:</strong> This is a filtered version containing only "
  ++ py_str_nat n
  ++ " specific controls extracted from the original framework.</p>".

(** A value that is not a mapping holds no key. *)
Definition lacks_key (h : heap) (v : value) (key : string) : bool :=
  match dict_at h v with
  | Some m => bool_decide (m !! key = None)
  | None => true
  end.

(** The document lacks the key [catalog], or its catalog lacks the key
    [securityControls]. *)
Definition lacks_controls (h : heap) (doc : value) : bool :=
  match dict_at h doc with
  | Some dm =>
      match dm !! "catalog" with
      | Some cat => lacks_key h cat "securityControls"
      | None => true
      end
  | None => true
  end.

(** Documents that follow the data model wherever they hold the two
    keys: the document is a mapping; [catalog], when present, is a
    mapping; [securityControls], when present, is a list of mappings. *)
Definition mapping_document (h : heap) (doc : value) : bool :=
  match dict_at h doc with
  | Some dm =>
      match dm !! "catalog" with
      | Some cat =>
          match dict_at h cat with
          | Some cm =>
              match cm !! "securityControls" with
              | Some _ => valid_document h doc
              | None => true
              end
          | None => false
          end
      | None => true
      end
  | None => false
  end.

(** [control.get('controlId') == s] *)
Definition has_id (h : heap) (s : string) (control : value) : bool :=
  match control_id h control with
  | Some (VStr s') => bool_decide (s' = s)
  | _ => false
  end.

(** The catalog mapping after the three assignments of the function:
    [securityControls], [title] and [description], in that order. *)
Definition annotated (cm : gmap string value) (fl : value) (n : nat)
    (T D : string) : gmap string value :=
  <["description" := VStr (D ++ newline ++ newline ++ description_note n)]>
    (<["title" := VStr (T ++ title_suffix n)]>
       (<["securityControls" := fl]> cm)).

(** The objects of a document of the data model, by name: the document
    [d], its catalog [c] and the control list [sl], with their contents. *)
Record layout (h : heap) (doc : value) (d : loc) (dm : gmap string value)
    (c : loc) (cm : gmap string value) (sl : loc) (cs : list value) : Prop := {
  lay_doc : doc = VRef d;
  lay_d : h !! d = Some (ODict dm);
  lay_catalog : dm !! "catalog" = Some (VRef c);
  lay_c : h !! c = Some (ODict cm);
  lay_controls : cm !! "securityControls" = Some (VRef sl);
  lay_sl : h !! sl = Some (OList cs);
  lay_cs : forallb (is_control h) cs = true
}.

(** ** Sample documents *)

Definition control (cid : value) : obj := ODict {[ "controlId" := cid ]}.

(** Six controls: [A], [B], [C], one without [controlId], one whose
    [controlId] is a number, and a second [A]. *)
Definition sample_list : list value :=
  [VRef 4; VRef 5; VRef 6; VRef 7; VRef 8; VRef 9].

Definition sample_controls : heap :=
  <[4%positive := control (VStr "A")]>
  (<[5%positive := control (VStr "B")]>
  (<[6%positive := control (VStr "C")]>
  (<[7%positive := ODict {[ "title" := VStr "no identifier" ]}]>
  (<[8%positive := control (VNum 7)]>
  (<[9%positive := control (VStr "A")]>
  (<[3%positive := OList sample_list]> ∅)))))).

(** [{"catalog": {"title": "T", "description": "D", "securityControls": [...]}}],
    the document at [VRef 1] and its catalog at [VRef 2]. *)
Definition sample_catalog : gmap string value :=
  <["title" := VStr "T"]>
    (<["description" := VStr "D"]> {[ "securityControls" := VRef 3 ]}).

Definition sample : heap :=
  <[1%positive := ODict {[ "catalog" := VRef 2 ]}]>
  (<[2%positive := ODict sample_catalog]> sample_controls).

(** The same controls under a catalog with neither title nor description. *)
Definition untitled_catalog : gmap string value :=
  {[ "securityControls" := VRef 3 ]}.

Definition sample_untitled : heap :=
  <[1%positive := ODict {[ "catalog" := VRef 2 ]}]>
  (<[2%positive := ODict untitled_catalog]> sample_controls).

(** [{"catalog": {"title": "T"}}] *)
Definition sample_no_controls : heap :=
  <[1%positive := ODict {[ "catalog" := VRef 2 ]}]>
  {[ 2%positive := ODict {[ "title" := VStr "T" ]} ]}.


(** [{"catalog": {"securityControls": ["ID.AM-03"]}}]: a control that is a
    string, not a mapping. *)
Definition sample_string_control : heap :=
  <[1%positive := ODict {[ "catalog" := VRef 2 ]}]>
  (<[2%positive := ODict {[ "securityControls" := VRef 3 ]}]>
  {[ 3%positive := OList [VStr "ID.AM-03"] ]}).

(** [{"catalog": "abc"}] *)
Definition sample_string_catalog : heap :=
  {[ 1%positive := ODict {[ "catalog" := VStr "abc" ]} ]}.

(** A rendering to run the samples with; their titles and descriptions
    are strings, which no rendering touches. *)
Definition no_render : heap → value → string := λ _ _, "".

(** ** The console, the files and the libraries

    [main] and its helpers print lines, read one file and write one.
    What [open], [json.load] and [json.dump] do is not in the program:
    they are parameters below.  The program's own part is the order of
    the calls and what it does with the exceptions. *)

(** [len(v)].  A string of the model is a sequence of 8-bit characters:
    for text made of such characters the length is Python's. *)
Definition py_len (v : value) (h : heap) : result nat :=
  match v with
  | VStr s => Ok (String.length s)
  | VRef l =>
      match h !! l with
      | Some (OList xs) => Ok (length xs)
      | Some (ODict m) => Ok (size m)
      | None => Err Dangling
      end
  | _ => Err TypeError
  end.

(** [v.get(key, {})] and [v.get(key, [])]: the method is looked up, then
    the default object is built, then the call is made. *)
Definition py_get_new (v : value) (key : string) (dflt : obj) : py value :=
  (_ <- read (py_get v key VNone) ;;
   d <- alloc dflt ;;
   read (py_get v key d))%py.

(** ["-" * n] *)
Fixpoint dashes (n : nat) : string :=
  match n with
  | O => EmptyString
  | S n' => String "-"%char (dashes n')
  end.

Section Program.

Variable render : heap → value → string.

(** The state of the files, and the exceptions of the libraries other
    than the two that [load_nist_csf_file] names. *)
Variables FS L : Type.

(** The exceptions that reach [main]: the ones of the interpreter
    ([exn]), the two that the helpers raise themselves, and the ones of
    the libraries that pass through. *)
Inductive error : Type :=
  | Py (e : exn)
  | FileNotFoundError
  | Exception
  | Other (l : L).

(** What is printed, in order: a line of text, the warning of the filter,
    or [print(f"Error: {e}")] for an exception [e]. *)
Inductive printed : Type :=
  | Line (s : string)
  | Event (ev : event)
  | ErrorLine (e : error).

Record world : Type :=
  World { w_heap : heap; w_stdout : list printed; w_files : FS }.

Inductive outcome (A : Type) : Type :=
  | Done (a : A)
  | Raise (e : error).
Arguments Done {A} a.
Arguments Raise {A} e.

Definition io (A : Type) : Type := world → world * outcome A.

Definition io_ret {A} (a : A) : io A := λ w, (w, Done a).

Definition io_bind {A B} (m : io A) (k : A → io B) : io B :=
  λ w, match m w with
       | (w', Done a) => k a w'
       | (w', Raise e) => (w', Raise e)
       end.

(** [try: m  except Exception as e: handler e] *)
Definition try_except {A} (m : io A) (handler : error → io A) : io A :=
  λ w, match m w with
       | (w', Done a) => (w', Done a)
       | (w', Raise e) => handler e w'
       end.

(** A computation on the store alone, run inside the program: what it
    prints goes to the console, its exception is raised as it is. *)
Definition lift {A} (m : py A) : io A :=
  λ w, match m (State (w_heap w) []) with
       | (st', r) =>
           (World (st_heap st') (w_stdout w ++ (Event <$> st_out st')) (w_files w),
            match r with Ok a => Done a | Err e => Raise (Py e) end)
       end.

Definition say (s : string) : io unit :=
  λ w, (World (w_heap w) (w_stdout w ++ [Line s]) (w_files w), Done tt).

Definition report (e : error) : io unit :=
  λ w, (World (w_heap w) (w_stdout w ++ [ErrorLine e]) (w_files w), Done tt).

(** What [open(path, 'r')] followed by [json.load] comes to: the parsed
    value, built in the store, or an exception. *)
Inductive loaded : Type :=
  | Parsed (v : value)
  | NotFound
  | Undecodable
  | Failed (l : L).

Variable read_json_file : string → FS → heap → heap * loaded.

(** What [open(path, 'w')] followed by [json.dump] comes to: the files
    after it, and the exception when there is one. *)
Variable write_json_file : value → string → heap → FS → FS * option L.

Declare Scope io_scope.
Delimit Scope io_scope with io.
Notation "x <- m ;; k" := (io_bind m (λ x, k))
  (at level 100, m at next level, right associativity) : io_scope.
Notation "m ;;; k" := (io_bind m (λ _, k))
  (at level 100, right associativity) : io_scope.
Local Open Scope io_scope.

(** Lines 29-35.  A missing file is raised again as [FileNotFoundError].
    For text that is not JSON the handler evaluates
    [json.JSONDecodeError(msg)]; the constructor of that class takes
    [msg], [doc] and [pos], so the call itself raises [TypeError], and
    that is the exception that leaves the function.  Any other exception
    passes through. *)
Definition load_nist_csf_file (file_path : string) : io value :=
  λ w, match read_json_file file_path (w_files w) (w_heap w) with
       | (h', r) =>
           (World h' (w_stdout w) (w_files w),
            match r with
            | Parsed v => Done v
            | NotFound => Raise FileNotFoundError
            | Undecodable => Raise (Py TypeError)
            | Failed l => Raise (Other l)
            end)
       end.

(** Lines 99-104: every exception of the write is replaced by a plain
    [Exception]; the confirmation is printed after a write that
    succeeded. *)
Definition save_filtered_controls (data : value) (output_path : string)
  : io unit :=
  λ w, match write_json_file data output_path (w_heap w) (w_files w) with
       | (fs', None) =>
           (World (w_heap w)
              (w_stdout w ++ [Line ("Filtered controls saved to: " ++ output_path)])
              fs',
            Done tt)
       | (fs', Some _) => (World (w_heap w) (w_stdout w) fs', Raise Exception)
       end.

(** The [for control in controls] loop of lines 119-127. *)
Fixpoint summary_loop (controls : list value) : io unit :=
  match controls with
  | [] => io_ret tt
  | control :: rest =>
      control_id <- lift (read (py_get control "controlId" (VStr "Unknown"))) ;;
      title <- lift (read (py_get control "title" (VStr "No title"))) ;;
      family <- lift (read (py_get control "family" (VStr "Unknown family"))) ;;
      id_text <- lift (read (py_format render control_id)) ;;
      say ("ID: " ++ id_text) ;;;
      family_text <- lift (read (py_format render family)) ;;
      say ("Family: " ++ family_text) ;;;
      title_text <- lift (read (py_format render title)) ;;
      say ("Title: " ++ title_text) ;;;
      say (dashes 80) ;;;
      summary_loop rest
  end.

(** Lines 114-127. *)
Definition print_control_summary (data : value) : io unit :=
  catalog <- lift (py_get_new data "catalog" (ODict ∅)) ;;
  controls <- lift (py_get_new catalog "securityControls" (OList [])) ;;
  n <- lift (read (py_len controls)) ;;
  say (newline ++ "Extracted " ++ py_str_nat n ++ " controls:") ;;;
  say (dashes 80) ;;;
  items <- lift (read (py_iter controls)) ;;
  summary_loop items.

(** Lines 166-193, from the namespace that [parse_args] returns. *)
Definition main (args : Args) : io nat :=
  let control_ids := main_control_ids args in
  try_except
    (say ("Loading NIST CSF file: " ++ input args) ;;;
     nist_data <- load_nist_csf_file (input args) ;;
     say ("Extracting " ++ py_str_nat (length control_ids)
          ++ " specified controls...") ;;;
     filtered_data <- lift (extract_controls_by_id render nist_data control_ids) ;;
     save_filtered_controls filtered_data (output args) ;;;
     (if summary args then print_control_summary filtered_data else io_ret tt) ;;;
     catalog <- lift (read (py_getitem filtered_data "catalog")) ;;
     controls <- lift (read (py_getitem catalog "securityControls")) ;;
     n <- lift (read (py_len controls)) ;;
     say (newline ++ "Successfully extracted " ++ py_str_nat n ++ " controls") ;;;
     io_ret 0%nat)
    (λ e, report e ;;; io_ret 1%nat).

End Program.

Arguments Py {L} e.
Arguments FileNotFoundError {L}.
Arguments Exception {L}.
Arguments Other {L} l.
Arguments Line {L} s.
Arguments Event {L} ev.
Arguments ErrorLine {L} e.
Arguments World {FS L} _ _ _.
Arguments w_heap {FS L} _.
Arguments w_stdout {FS L} _.
Arguments w_files {FS L} _.
Arguments Done {L A} a.
Arguments Raise {L A} e.
Arguments Parsed {L} v.
Arguments NotFound {L}.
Arguments Undecodable {L}.
Arguments Failed {L} l.

(** The lines of the summary for the controls [cs], read in the store [h]. *)
Definition field_text (render : heap → value → string) (h : heap)
    (control : value) (key dflt : string) : string :=
  match dict_at h control with
  | Some m => text_of render h (default (VStr dflt) (m !! key))
  | None => ""
  end.

Definition control_lines (render : heap → value → string) (h : heap)
    (control : value) : list string :=
  [ "ID: " ++ field_text render h control "controlId" "Unknown";
    "Family: " ++ field_text render h control "family" "Unknown family";
    "Title: " ++ field_text render h control "title" "No title";
    dashes 80 ].

Definition summary_lines (render : heap → value → string) (h : heap)
    (cs : list value) : list string :=
  (newline ++ "Extracted " ++ py_str_nat (length cs) ++ " controls:")
  :: dashes 80
  :: flat_map (control_lines render h) cs.

(** A computation that leaves the files as they are, whatever it returns. *)
Definition keeps_files {FS L A} (m : io FS L A) : Prop :=
  ∀ w w' r, m w = (w', r) → w_files w' = w_files w.

(** ** Sample files and command lines *)

(** A reader that finds the document [doc] of the store [content] in
    every file, and one that finds no file. *)
Definition sample_reader (content : heap) (doc : value)
  : string → list (string * value) → heap → heap * @loaded unit :=
  λ _ _ _, (content, Parsed doc).

Definition missing_reader
  : string → list (string * value) → heap → heap * @loaded unit :=
  λ _ _ h, (h, NotFound).

(** A writer that records what it is given under the path, and one that
    fails. *)
Definition recording_writer
  : value → string → heap → list (string * value)
    → list (string * value) * option unit :=
  λ v path _ fs, ((path, v) :: fs, None).

Definition failing_writer
  : value → string → heap → list (string * value)
    → list (string * value) * option unit :=
  λ _ _ _ fs, (fs, Some tt).

Definition sample_args : Args :=
  {| input := "nist-csf-2.json";
     output := "nist-csf-2-filtered.json";
     controls := Some ["C"; "A"; "X"];
     summary := true |}.

Definition empty_world : world (list (string * value)) unit := World ∅ [] [].

(** * Properties *)

(** ** Lists and the store *)

Lemma forallb_elem_of {A} (f : A → bool) (l : list A) x :
  forallb f l = true → x ∈ l → f x = true.
Proof.
  intros Hf Hx. apply (proj1 (forallb_forall f l) Hf).
  by apply list_elem_of_In.
Qed.

Lemma list_filter_iff_in {A} (P Q : A → Prop) `{!∀ x, Decision (P x)}
    `{!∀ x, Decision (Q x)} (l : list A) :
  (∀ x, x ∈ l → P x ↔ Q x) → filter P l = filter Q l.
Proof.
  induction l as [|a l IH]; intros HPQ; [done|].
  rewrite !filter_cons, IH by (intros; apply HPQ; by right).
  apply decide_ext, HPQ. by left.
Qed.

Lemma lookup_alloc (h : heap) l o o' :
  h !! l = Some o → <[fresh (dom h) := o']> h !! l = Some o.
Proof.
  intros Hl. rewrite lookup_insert_ne; [done|].
  intros <-. apply (is_fresh (dom h)). apply elem_of_dom. eauto.
Qed.

(** ** Controls and their identifiers *)

Lemma is_control_dict h v :
  is_control h v = true → ∃ l m, v = VRef l ∧ h !! l = Some (ODict m).
Proof.
  unfold is_control, dict_at. destruct v as [| | | |l]; try done.
  destruct (h !! l) as [[m|xs]|] eqn:E; try done. eauto.
Qed.

Lemma control_id_get h v :
  is_control h v = true →
  ∃ x, py_get v "controlId" VNone h = Ok x ∧ control_id h v = Some x.
Proof.
  intros (l & m & -> & Hl)%is_control_dict.
  unfold py_get, control_id, dict_at. rewrite Hl. simpl. eauto.
Qed.

Lemma control_id_alloc (h : heap) v o' :
  is_control h v = true →
  control_id (<[fresh (dom h) := o']> h) v = control_id h v
  ∧ is_control (<[fresh (dom h) := o']> h) v = true.
Proof.
  intros (l & m & -> & Hl)%is_control_dict.
  unfold control_id, is_control, dict_at.
  by rewrite (lookup_alloc _ _ _ _ Hl), Hl.
Qed.

Lemma id_strings_cons (h : heap) v cs :
  id_strings h (v :: cs)
  = match control_id h v with
    | Some (VStr s) => s :: id_strings h cs
    | _ => id_strings h cs
    end.
Proof.
  unfold id_strings. csimpl.
  by destruct (control_id h v) as [[| | |s|]|].
Qed.

Lemma elem_of_id_strings h s cs :
  s ∈ id_strings h cs ↔ ∃ v, v ∈ cs ∧ control_id h v = Some (VStr s).
Proof.
  unfold id_strings. rewrite list_elem_of_omap. split.
  - intros (v & Hv & Hs). exists v. split; [done|].
    by destruct (control_id h v) as [[| | |s'|]|]; simplify_eq.
  - intros (v & Hv & Hs). exists v. split; [done|]. by rewrite Hs.
Qed.

Lemma selected_spec h ids v :
  selected h ids v = true ↔ ∃ s, control_id h v = Some (VStr s) ∧ s ∈ ids.
Proof.
  unfold selected. destruct (control_id h v) as [[| | |s|]|]; simpl;
    try (split; [done|by intros (? & ? & ?)]).
  rewrite bool_decide_eq_true. split.
  - intros Hs. by exists s.
  - by intros (? & [= ->] & ?).
Qed.

Lemma has_id_spec h s v :
  has_id h s v = true ↔ control_id h v = Some (VStr s).
Proof.
  unfold has_id. destruct (control_id h v) as [[| | |s'|]|]; simpl; try done.
  rewrite bool_decide_eq_true. split; [by intros ->|by intros [= ->]].
Qed.

Lemma filter_selected_agree (h h' : heap) ids cs :
  Forall (λ v, control_id h' v = control_id h v) cs →
  filter (selected h' ids) cs = filter (selected h ids) cs.
Proof.
  induction 1 as [|v cs Hv _ IH]; [done|].
  assert (Hs : selected h' ids v = selected h ids v)
    by (unfold selected; by rewrite Hv).
  rewrite !filter_cons, IH. apply decide_ext. by rewrite Hs.
Qed.

Lemma id_strings_agree (h h' : heap) cs :
  Forall (λ v, control_id h' v = control_id h v) cs →
  id_strings h' cs = id_strings h cs.
Proof.
  induction 1 as [|v cs Hv _ IH]; [done|].
  by rewrite !id_strings_cons, Hv, IH.
Qed.

(** ** The annotated catalog *)

Lemma annotated_controls cm fl n T D :
  annotated cm fl n T D !! "securityControls" = Some fl.
Proof.
  unfold annotated. rewrite !lookup_insert_ne by done. apply lookup_insert_eq.
Qed.

Lemma annotated_title cm fl n T D :
  annotated cm fl n T D !! "title" = Some (VStr (T ++ title_suffix n)).
Proof.
  unfold annotated. rewrite lookup_insert_ne by done. apply lookup_insert_eq.
Qed.

Lemma annotated_description cm fl n T D :
  annotated cm fl n T D !! "description"
  = Some (VStr (D ++ newline ++ newline ++ description_note n)).
Proof. unfold annotated. by rewrite lookup_insert_eq. Qed.

Lemma annotated_controlId cm fl n T D :
  annotated cm fl n T D !! "controlId" = cm !! "controlId".
Proof. unfold annotated. by rewrite !lookup_insert_ne by done. Qed.

(** ** Documents of the data model *)

Lemma valid_layout h doc :
  valid_document h doc = true →
  ∃ d dm c cm sl cs, layout h doc d dm c cm sl cs.
Proof.
  unfold valid_document, controls_of, catalog_of.
  destruct (dict_at h doc) as [dm|] eqn:Ed; [|done]. simpl.
  destruct (dm !! "catalog") as [cat|] eqn:Ecat; [|done]. simpl.
  destruct (dict_at h cat) as [cm|] eqn:Ec; [|done]. simpl.
  destruct (cm !! "securityControls") as [sc|] eqn:Esc; [|done]. simpl.
  destruct (list_at h sc) as [cs|] eqn:Esl; [|done]. intros Hcs.
  destruct doc as [| | | |d]; try done.
  destruct cat as [| | | |c]; try done.
  destruct sc as [| | | |sl]; try done.
  unfold dict_at, list_at in *.
  destruct (h !! d) as [[?|?]|] eqn:Hd; try done.
  destruct (h !! c) as [[?|?]|] eqn:Hc; try done.
  destruct (h !! sl) as [[?|?]|] eqn:Hsl; try done.
  simplify_eq. by exists d, dm, c, cm, sl, cs.
Qed.

Lemma layout_catalog h doc d dm c cm sl cs :
  layout h doc d dm c cm sl cs → catalog_of h doc = Some cm.
Proof.
  intros [-> Hd Hcat Hc _ _ _]. unfold catalog_of, dict_at.
  rewrite Hd. simpl. rewrite Hcat. simpl. by rewrite Hc.
Qed.

Lemma layout_controls h doc d dm c cm sl cs :
  layout h doc d dm c cm sl cs → controls_of h doc = Some cs.
Proof.
  intros L. unfold controls_of. rewrite (layout_catalog _ _ _ _ _ _ _ _ L).
  destruct L as [_ _ _ _ Hsc Hsl _]. simpl. rewrite Hsc. simpl.
  unfold list_at. by rewrite Hsl.
Qed.

Lemma layout_valid h doc d dm c cm sl cs :
  layout h doc d dm c cm sl cs → valid_document h doc = true.
Proof.
  intros L. unfold valid_document. rewrite (layout_controls _ _ _ _ _ _ _ _ L).
  by destruct L.
Qed.

(** ** Running the function *)

Lemma warn_step (missing : gset string) st :
  (if bool_decide (missing = ∅) then py_ret tt else print (Warning missing)) st
  = (State (st_heap st)
       (st_out st ++ if decide (missing = ∅) then [] else [Warning missing]),
     Ok tt).
Proof.
  destruct st as [h out]. destruct (decide (missing = ∅)) as [E|E].
  - rewrite bool_decide_eq_true_2 by done. unfold py_ret. simpl. by rewrite app_nil_r.
  - by rewrite bool_decide_eq_false_2 by done.
Qed.

(** One [x <- read f ;; k] step of the program. *)
Ltac py_read :=
  unfold py_bind at 1, read at 1;
  cbn [st_heap st_out py_contains py_getitem py_get].

Section Verification.

Variable render : heap → value → string.

Lemma filter_loop_run h out ids cs fc fi :
  forallb (is_control h) cs = true →
  filter_loop ids cs fc fi (State h out)
  = (State h out,
     Ok ((fc ++ filter (selected h ids) cs)%list,
         list_to_set (id_strings h (filter (selected h ids) cs)) ∪ fi)).
Proof.
  revert fc fi. induction cs as [|v cs IH]; intros fc fi Hcs; simpl.
  - unfold py_ret. rewrite app_nil_r. do 3 f_equal.
    by rewrite (left_id_L ∅ (∪)).
  - apply andb_true_iff in Hcs as [Hv Hcs].
    destruct (control_id_get h v Hv) as (x & Hget & Hid).
    assert (Hsel : selected h ids v = py_in x ids)
      by (unfold selected; by rewrite Hid).
    py_read. rewrite Hget.
    destruct (py_in x ids) eqn:Hin.
    + py_read. rewrite Hget.
      rewrite IH by done.
      rewrite filter_cons_True by (by rewrite Hsel).
      rewrite id_strings_cons, Hid, <- app_assoc.
      destruct x as [| | |s|]; try done.
      do 3 f_equal. rewrite list_to_set_cons.
      by rewrite (assoc_L (∪)), (comm_L (∪) {[s]}).
    + rewrite filter_cons_False by (rewrite Hsel; exact id). by apply IH.
Qed.

Lemma py_format_text v h : py_format render v h = Ok (text_of render h v).
Proof. by destruct v. Qed.

Lemma extract_run h out d dm c cm sc cs ids :
  h !! d = Some (ODict dm) →
  dm !! "catalog" = Some (VRef c) →
  h !! c = Some (ODict cm) →
  cm !! "securityControls" = Some sc →
  py_iter sc h = Ok cs →
  forallb (is_control h) cs = true →
  let fd := fresh (dom h) in
  let h1 := <[fd := ODict dm]> h in
  let kept := filter (selected h ids) cs in
  let fl := fresh (dom h1) in
  let missing : gset string := list_to_set ids ∖ list_to_set (id_strings h kept) in
  ∃ hT hD,
    extract_controls_by_id render (VRef d) ids (State h out) =
    (State (<[c := ODict (annotated cm (VRef fl) (length kept)
                            (text_of render hT (default (VStr "NIST CSF 2.0") (cm !! "title")))
                            (text_of render hD (default (VStr "") (cm !! "description"))))]>
              (<[fl := OList kept]> h1))
           (st_out (State h out) ++ if decide (missing = ∅) then [] else [Warning missing]),
     Ok (VRef fd)).
Proof.
  intros Hd Hcat Hc Hsc Hit Hcs fd h1 kept fl missing.
  assert (Hd1 : h1 !! d = Some (ODict dm)) by by apply lookup_alloc.
  assert (Hc1 : h1 !! c = Some (ODict cm)) by by apply lookup_alloc.
  assert (Hfd1 : h1 !! fd = Some (ODict dm)) by apply lookup_insert_eq.
  assert (Hit1 : py_iter sc h1 = Ok cs).
  { destruct sc as [| | | |l]; try done. simpl in *.
    destruct (h !! l) as [o|] eqn:El; [|done].
    unfold h1, fd. by rewrite (lookup_alloc _ _ _ _ El). }
  unfold extract_controls_by_id.
  unfold py_bind at 1, py_copy. cbn [st_heap st_out]. rewrite Hd.
  unfold alloc; cbn [st_heap st_out]. fold fd. fold h1.
  py_read. rewrite Hd1.
  rewrite bool_decide_eq_true_2 by (rewrite Hcat; eauto).
  cbn [negb].
  unfold py_bind at 1. py_read. rewrite Hd1, Hcat.
  py_read. rewrite Hc1.
  rewrite bool_decide_eq_true_2 by (rewrite Hsc; eauto).
  unfold py_ret at 1. cbn [negb].
  py_read. rewrite Hd1, Hcat.
  py_read. rewrite Hc1, Hsc.
  py_read. rewrite Hit1.
  assert (Hfr : Forall (λ v, control_id h1 v = control_id h v
                            ∧ is_control h1 v = true) cs).
  { apply Forall_forall. intros v Hv. apply control_id_alloc.
    by apply (forallb_elem_of _ _ _ Hcs). }
  assert (Hcs1 : forallb (is_control h1) cs = true).
  { apply forallb_forall. intros v Hv%list_elem_of_In.
    by apply (proj1 (Forall_forall _ _) Hfr). }
  assert (Hk1 : filter (selected h1 ids) cs = kept).
  { apply filter_selected_agree. eapply Forall_impl; [exact Hfr|]. by intros ? [? _]. }
  assert (Hi1 : id_strings h1 kept = id_strings h kept).
  { apply id_strings_agree. apply Forall_forall. intros v Hv.
    apply list_elem_of_filter in Hv as [_ Hv].
    by apply (proj1 (Forall_forall _ _) Hfr). }
  unfold py_bind at 1. rewrite (filter_loop_run h1 out ids cs [] ∅ Hcs1).
  rewrite Hk1, Hi1, app_nil_l, (right_id_L ∅ (∪)). cbn [fst snd]. fold missing.
  assert (Hfl : h1 !! fl = None).
  { apply not_elem_of_dom. apply is_fresh. }
  assert (Hcfl : c ≠ fl) by (intros ->; congruence).
  assert (Hfdfl : fd ≠ fl) by (intros Heq; rewrite Heq in Hfd1; congruence).
  unfold py_bind at 1. rewrite warn_step. cbn [st_heap st_out].
  set (out' := (out ++ if decide (missing = ∅) then [] else [Warning missing])%list).
  unfold py_bind at 1. cbn [st_heap st_out]. fold fl.
  set (h2 := <[fl := OList kept]> h1).
  assert (Hfd2 : h2 !! fd = Some (ODict dm)) by (unfold h2; by rewrite lookup_insert_ne).
  assert (Hc2 : h2 !! c = Some (ODict cm)) by (unfold h2; by rewrite lookup_insert_ne).
  py_read. rewrite Hfd2, Hcat.
  unfold py_bind at 1, py_setitem at 1. cbn [st_heap st_out]. rewrite Hc2.
  assert (Hcfd : c ≠ fd).
  { intros ->. pose proof (is_fresh (dom h)) as Hf. apply Hf, elem_of_dom. eauto. }
  assert (Hfd3 : ∀ o (g : heap), <[c := o]> g !! fd = g !! fd)
    by (intros; by rewrite lookup_insert_ne).
  unfold py_bind at 1. py_read. rewrite Hfd3, Hfd2.
  rewrite bool_decide_eq_true_2 by (rewrite Hcat; eauto).
  py_read.
  rewrite Hfd3, Hfd2, Hcat.
  py_read.
  rewrite lookup_insert_eq.
  py_read. rewrite py_format_text.
  py_read.
  rewrite Hfd3, Hfd2, Hcat.
  unfold py_bind at 1, py_setitem at 1. cbn [st_heap st_out].
  rewrite lookup_insert_eq, insert_insert_eq.
  py_read.
  rewrite Hfd3, Hfd2, Hcat.
  py_read.
  rewrite lookup_insert_eq.
  py_read. rewrite py_format_text.
  py_read.
  rewrite Hfd3, Hfd2, Hcat.
  unfold py_setitem at 1. cbn [st_heap st_out].
  rewrite lookup_insert_eq, insert_insert_eq.
  unfold py_ret.
  rewrite lookup_insert_ne by done. rewrite lookup_insert_ne by done.
  rewrite lookup_insert_ne by done.
  eexists _, _. reflexivity.
Qed.

Lemma extract_layout h out doc ids d dm c cm sl cs :
  layout h doc d dm c cm sl cs →
  ∃ h' fd fl hT hD,
    let kept := filter (selected h ids) cs in
    let missing : gset string :=
      list_to_set ids ∖ list_to_set (id_strings h kept) in
    extract_controls_by_id render doc ids (State h out)
    = (State h' (out ++ if decide (missing = ∅) then [] else [Warning missing]),
       Ok (VRef fd))
    ∧ layout h' (VRef fd) fd dm c
        (annotated cm (VRef fl) (length kept)
           (text_of render hT (default (VStr "NIST CSF 2.0") (cm !! "title")))
           (text_of render hD (default (VStr "") (cm !! "description"))))
        fl kept
    ∧ (∀ v, is_control h v = true → control_id h' v = control_id h v)
    ∧ (∀ l o, h !! l = Some o → l ≠ c → h' !! l = Some o).
Proof.
  intros [-> Hd Hcat Hc Hsc Hsl Hcs].
  assert (Hit : py_iter (VRef sl) h = Ok cs) by (simpl; by rewrite Hsl).
  destruct (extract_run h out d dm c cm (VRef sl) cs ids Hd Hcat Hc Hsc Hit Hcs)
    as (hT & hD & Hrun).
  cbn zeta in Hrun. cbn [st_out] in Hrun.
  set (fd := fresh (dom h)) in *. set (h1 := <[fd := ODict dm]> h) in *.
  set (fl := fresh (dom h1)) in *.
  assert (Hfd : h !! fd = None) by apply not_elem_of_dom, is_fresh.
  assert (Hfl : h1 !! fl = None) by apply not_elem_of_dom, is_fresh.
  assert (Hfdfl : fd ≠ fl) by (intros E; unfold h1 in Hfl; by rewrite <- E, lookup_insert_eq in Hfl).
  assert (Hold : ∀ l o, h !! l = Some o → l ≠ fd ∧ l ≠ fl).
  { intros l o Hl. split; intros ->; [congruence|].
    unfold h1 in Hfl. rewrite lookup_insert_ne in Hfl by done. congruence. }
  destruct (Hold _ _ Hc) as [Hcfd Hcfl].
  eexists _, fd, fl, hT, hD. cbn zeta. split; [exact Hrun|].
  assert (Hctl : ∀ v, is_control h v = true →
    control_id (<[c := ODict (annotated cm (VRef fl)
         (length (filter (selected h ids) cs))
         (text_of render hT (default (VStr "NIST CSF 2.0") (cm !! "title")))
         (text_of render hD (default (VStr "") (cm !! "description"))))]>
       (<[fl := OList (filter (selected h ids) cs)]> h1)) v = control_id h v).
  { intros v (l & m & -> & Hl)%is_control_dict.
    destruct (Hold _ _ Hl) as [Hlfd Hlfl].
    unfold control_id, dict_at. rewrite Hl.
    destruct (decide (l = c)) as [->|Hlc].
    - rewrite lookup_insert_eq. simpl. rewrite annotated_controlId. congruence.
    - unfold h1. rewrite !lookup_insert_ne by done. by rewrite Hl. }
  split; [|split].
  - split; try done.
    + unfold h1. rewrite !lookup_insert_ne by done. apply lookup_insert_eq.
    + apply lookup_insert_eq.
    + apply annotated_controls.
    + rewrite lookup_insert_ne by done. apply lookup_insert_eq.
    + apply forallb_forall. intros v Hv%list_elem_of_In.
      apply list_elem_of_filter in Hv as [_ Hv].
      pose proof (forallb_elem_of _ _ _ Hcs Hv) as Hic.
      apply is_control_dict in Hic as (l & m & -> & Hl).
      destruct (Hold _ _ Hl) as [Hlfd Hlfl].
      unfold is_control, dict_at.
      destruct (decide (l = c)) as [->|Hlc].
      * by rewrite lookup_insert_eq.
      * unfold h1. rewrite !lookup_insert_ne by done. by rewrite Hl.
  - exact Hctl.
  - intros l o Hl Hlc. destruct (Hold _ _ Hl) as [Hlfd Hlfl].
    unfold h1. by rewrite !lookup_insert_ne.
Qed.

(** ** The filter on a valid document *)

(** The run on a valid document, in the vocabulary of the properties:
    the call returns a document whose controls are the selected ones. *)
Lemma extract_valid h out doc ids cs :
  valid_document h doc = true →
  controls_of h doc = Some cs →
  ∃ st' r,
    extract_controls_by_id render doc ids (State h out) = (st', Ok r)
    ∧ controls_of (st_heap st') r = Some (filter (selected h ids) cs)
    ∧ valid_document (st_heap st') r = true
    ∧ (∀ v, v ∈ cs → control_id (st_heap st') v = control_id h v).
Proof.
  intros (d & dm & c & cm & sl & cs' & L)%valid_layout Hcs.
  rewrite (layout_controls _ _ _ _ _ _ _ _ L) in Hcs. simplify_eq.
  destruct (extract_layout h out doc ids _ _ _ _ _ _ L)
    as (h' & fd & fl & hT & hD & Hrun & L' & Hid & _).
  eexists _, _. split; [exact Hrun|]. cbn [st_heap].
  split; [exact (layout_controls _ _ _ _ _ _ _ _ L')|].
  split; [exact (layout_valid _ _ _ _ _ _ _ _ L')|].
  intros v Hv. apply Hid. destruct L. by eapply forallb_elem_of.
Qed.

(** C2. For every document of the data model and every requested list:
    every control of the output has its [controlId] in the list, every
    control of the input whose [controlId] is in the list is in the
    output, and for each requested identifier the output holds as many
    controls with that identifier as the input does (controls that share
    an identifier are all kept). *)
Theorem filter_sound_complete h out doc ids cs :
  valid_document h doc = true →
  controls_of h doc = Some cs →
  ∃ st' r kept,
    extract_controls_by_id render doc ids (State h out) = (st', Ok r)
    ∧ controls_of (st_heap st') r = Some kept
    ∧ (∀ v, v ∈ kept →
         ∃ s, control_id (st_heap st') v = Some (VStr s) ∧ s ∈ ids)
    ∧ (∀ v s, v ∈ cs → control_id h v = Some (VStr s) → s ∈ ids → v ∈ kept)
    ∧ (∀ s, s ∈ ids →
         length (filter (has_id (st_heap st') s) kept)
         = length (filter (has_id h s) cs)).
Proof.
  intros Hvalid Hcs.
  destruct (extract_valid h out doc ids cs Hvalid Hcs)
    as (st' & r & Hrun & Hkept & _ & Hid).
  exists st', r, (filter (selected h ids) cs).
  split; [done|]. split; [done|]. split; [|split].
  - intros v [Hsel Hv]%list_elem_of_filter.
    rewrite (Hid v Hv). apply selected_spec. by apply Is_true_true.
  - intros v s Hv Hs Hin. apply list_elem_of_filter. split; [|done].
    apply Is_true_true, selected_spec. eauto.
  - intros s Hs. f_equal.
    rewrite (list_filter_iff_in (has_id (st_heap st') s) (has_id h s)).
    + apply list_filter_filter_l. intros v Hv%Is_true_true%has_id_spec.
      apply Is_true_true, selected_spec. eauto.
    + intros v [_ Hv]%list_elem_of_filter.
      unfold has_id. by rewrite (Hid v Hv).
Qed.

(** C3. On a valid document the output control sequence is the
    subsequence of the original sequence made of the selected controls,
    in the original order, and it is the same for every permutation of
    the requested list. *)
Theorem output_follows_catalog_order h out doc ids cs :
  valid_document h doc = true →
  controls_of h doc = Some cs →
  ∃ st' r kept,
    extract_controls_by_id render doc ids (State h out) = (st', Ok r)
    ∧ controls_of (st_heap st') r = Some kept
    ∧ kept = filter (selected h ids) cs
    ∧ sublist kept cs
    ∧ ∀ ids', ids' ≡ₚ ids →
        ∃ st'' r',
          extract_controls_by_id render doc ids' (State h out) = (st'', Ok r')
          ∧ controls_of (st_heap st'') r' = Some kept.
Proof.
  intros Hvalid Hcs.
  destruct (extract_valid h out doc ids cs Hvalid Hcs)
    as (st' & r & Hrun & Hkept & _ & _).
  exists st', r, (filter (selected h ids) cs).
  split; [done|]. split; [done|]. split; [done|].
  split; [apply sublist_filter|].
  intros ids' Hperm.
  destruct (extract_valid h out doc ids' cs Hvalid Hcs)
    as (st'' & r' & Hrun' & Hkept' & _ & _).
  exists st'', r'. split; [done|]. rewrite Hkept'. f_equal.
  apply list_filter_iff. intros v.
  rewrite !Is_true_true, !selected_spec.
  by setoid_rewrite Hperm.
Qed.

(** The same run, with the catalog of the output and what was printed. *)
Lemma extract_valid_catalog h out doc ids cm cs :
  valid_document h doc = true →
  catalog_of h doc = Some cm →
  controls_of h doc = Some cs →
  ∃ st' r cm' hT hD,
    let kept := filter (selected h ids) cs in
    let missing : gset string :=
      list_to_set ids ∖ list_to_set (id_strings (st_heap st') kept) in
    extract_controls_by_id render doc ids (State h out) = (st', Ok r)
    ∧ catalog_of (st_heap st') r = Some cm'
    ∧ controls_of (st_heap st') r = Some kept
    ∧ cm' !! "title"
      = Some (VStr (text_of render hT (default (VStr "NIST CSF 2.0") (cm !! "title"))
                    ++ title_suffix (length kept)))
    ∧ cm' !! "description"
      = Some (VStr (text_of render hD (default (VStr "") (cm !! "description"))
                    ++ newline ++ newline ++ description_note (length kept)))
    ∧ st_out st' = (out ++ if decide (missing = ∅) then [] else [Warning missing])%list.
Proof.
  intros (d & dm & c & cm0 & sl & cs0 & L)%valid_layout Hcm Hcs.
  rewrite (layout_catalog _ _ _ _ _ _ _ _ L) in Hcm.
  rewrite (layout_controls _ _ _ _ _ _ _ _ L) in Hcs. simplify_eq.
  destruct (extract_layout h out doc ids _ _ _ _ _ _ L)
    as (h' & fd & fl & hT & hD & Hrun & L' & Hid & _).
  cbn zeta in *.
  assert (Hids : id_strings h' (filter (selected h ids) cs)
                 = id_strings h (filter (selected h ids) cs)).
  { apply id_strings_agree, Forall_forall.
    intros v [_ Hv]%list_elem_of_filter. apply Hid.
    destruct L. by eapply forallb_elem_of. }
  eexists (State h' _), (VRef fd), _, hT, hD.
  cbn zeta. cbn [st_heap st_out]. rewrite Hids.
  split; [exact Hrun|].
  split; [exact (layout_catalog _ _ _ _ _ _ _ _ L')|].
  split; [exact (layout_controls _ _ _ _ _ _ _ _ L')|].
  split; [apply annotated_title|]. split; [apply annotated_description|done].
Qed.

(** C5. On a valid document whose title is a string and whose
    description is a string or is missing, the output title is the
    original title followed by [" (Filtered - N controls)"] and the
    output description is the original description (the empty string
    when missing) followed by a blank line and the HTML note, with [N]
    the number of controls kept, in decimal. *)
Theorem metadata_annotated h out doc ids cm t d :
  valid_document h doc = true →
  catalog_of h doc = Some cm →
  cm !! "title" = Some (VStr t) →
  cm !! "description" = Some (VStr d) ∨ (cm !! "description" = None ∧ d = "") →
  ∃ st' r cm' kept,
    extract_controls_by_id render doc ids (State h out) = (st', Ok r)
    ∧ catalog_of (st_heap st') r = Some cm'
    ∧ controls_of (st_heap st') r = Some kept
    ∧ cm' !! "title"
      = Some (VStr (t ++ " (Filtered - " ++ py_str_nat (length kept) ++ " controls)"))
    ∧ cm' !! "description"
      = Some (VStr (d ++ newline ++ newline
                    ++ "<p><strong>Note:</strong> This is a filtered version containing only "
                    ++ py_str_nat (length kept)
                    ++ " specific controls extracted from the original framework.</p>")).
Proof.
  intros Hvalid Hcm Ht Hd.
  destruct (controls_of h doc) as [cs|] eqn:Hcs;
    [|by unfold valid_document in Hvalid; rewrite Hcs in Hvalid].
  destruct (extract_valid_catalog h out doc ids cm cs Hvalid Hcm Hcs)
    as (st' & r & cm' & hT & hD & Hrun & Hcm' & Hkept & Htitle & Hdesc & _).
  exists st', r, cm', (filter (selected h ids) cs).
  split; [done|]. split; [done|]. split; [done|].
  rewrite Htitle, Hdesc, Ht. split; [done|].
  by destruct Hd as [->|[-> ->]].
Qed.

(** C9. On a valid document whose catalog has no [title] key, the
    output title is ["NIST CSF 2.0 (Filtered - N controls)"]. *)
Theorem missing_title_defaults h out doc ids cm :
  valid_document h doc = true →
  catalog_of h doc = Some cm →
  cm !! "title" = None →
  ∃ st' r cm' kept,
    extract_controls_by_id render doc ids (State h out) = (st', Ok r)
    ∧ catalog_of (st_heap st') r = Some cm'
    ∧ controls_of (st_heap st') r = Some kept
    ∧ cm' !! "title"
      = Some (VStr ("NIST CSF 2.0 (Filtered - " ++ py_str_nat (length kept)
                    ++ " controls)")).
Proof.
  intros Hvalid Hcm Ht.
  destruct (controls_of h doc) as [cs|] eqn:Hcs;
    [|by unfold valid_document in Hvalid; rewrite Hcs in Hvalid].
  destruct (extract_valid_catalog h out doc ids cm cs Hvalid Hcm Hcs)
    as (st' & r & cm' & hT & hD & Hrun & Hcm' & Hkept & Htitle & _).
  exists st', r, cm', (filter (selected h ids) cs).
  split; [done|]. split; [done|]. split; [done|].
  by rewrite Htitle, Ht.
Qed.

(** C6. On a valid document the call succeeds whatever the requested
    list and keeps the selected controls of the catalog; the set it
    reports in its warning (printed exactly when the set is not empty)
    is the set of requested identifiers minus the set of [controlId]s of
    the controls kept, that is, the requested identifiers that are the
    [controlId] of no control of the catalog; and the identifiers of
    that set play no part in what is kept: requesting the list without
    them keeps the same controls. *)
Theorem not_found_is_advisory h out doc ids cs :
  valid_document h doc = true →
  controls_of h doc = Some cs →
  ∃ st' r,
    let kept := filter (selected h ids) cs in
    let missing : gset string :=
      list_to_set ids ∖ list_to_set (id_strings (st_heap st') kept) in
    extract_controls_by_id render doc ids (State h out) = (st', Ok r)
    ∧ controls_of (st_heap st') r = Some kept
    ∧ (∀ s, s ∈ missing ↔
            s ∈ ids ∧ ∀ v, v ∈ cs → control_id h v ≠ Some (VStr s))
    ∧ st_out st' = (out ++ if decide (missing = ∅) then [] else [Warning missing])%list
    ∧ ∀ ids', (∀ s, s ∈ ids' ↔ s ∈ ids ∧ s ∉ missing) →
        ∃ st'' r',
          extract_controls_by_id render doc ids' (State h out) = (st'', Ok r')
          ∧ controls_of (st_heap st'') r' = Some kept.
Proof.
  intros Hvalid Hcs.
  destruct (catalog_of h doc) as [cm|] eqn:Hcm;
    [|by unfold controls_of in Hcs; rewrite Hcm in Hcs].
  destruct (extract_valid_catalog h out doc ids cm cs Hvalid Hcm Hcs)
    as (st' & r & cm' & hT & hD & Hrun & Hcm' & Hkept & _ & _ & Hout).
  destruct (extract_valid h out doc ids cs Hvalid Hcs)
    as (st1 & r1 & Hrun1 & _ & _ & Hid).
  rewrite Hrun in Hrun1. simplify_eq.
  exists st1, r1. cbn zeta in *.
  assert (Hmiss : ∀ s,
    s ∈ (list_to_set ids
         ∖ list_to_set (id_strings (st_heap st1) (filter (selected h ids) cs))
         : gset string)
    ↔ s ∈ ids ∧ ∀ v, v ∈ cs → control_id h v ≠ Some (VStr s)).
  { intros s. rewrite elem_of_difference, !elem_of_list_to_set, elem_of_id_strings.
    split.
    - intros [Hin Hno]. split; [done|]. intros v Hv Hs. apply Hno.
      exists v. split; [|by rewrite (Hid v Hv)].
      apply list_elem_of_filter. split; [|done].
      apply Is_true_true, selected_spec. eauto.
    - intros [Hin Hno]. split; [done|].
      intros (v & [_ Hv]%list_elem_of_filter & Hs).
      apply (Hno v Hv). by rewrite <- (Hid v Hv). }
  split; [done|]. split; [done|]. split; [exact Hmiss|]. split; [done|].
  intros ids' Hids'.
  destruct (extract_valid h out doc ids' cs Hvalid Hcs)
    as (st'' & r' & Hrun' & Hkept' & _ & _).
  exists st'', r'. split; [done|]. rewrite Hkept'. f_equal.
  apply list_filter_iff_in. intros v Hv.
  rewrite !Is_true_true, !selected_spec. split.
  - intros (s & Hs & Hin). exists s. split; [done|]. by apply Hids'.
  - intros (s & Hs & Hin). exists s. split; [done|]. apply Hids'.
    split; [done|]. rewrite Hmiss. intros [_ Hno]. by apply (Hno v Hv).
Qed.

(** C7. Filtering the output of the filter again, with the same
    requested list, succeeds and yields the same control sequence as the
    first call. *)
Theorem refilter_same_controls h out doc ids :
  valid_document h doc = true →
  ∃ st1 r1 st2 r2 kept,
    extract_controls_by_id render doc ids (State h out) = (st1, Ok r1)
    ∧ extract_controls_by_id render r1 ids st1 = (st2, Ok r2)
    ∧ controls_of (st_heap st1) r1 = Some kept
    ∧ controls_of (st_heap st2) r2 = Some kept.
Proof.
  intros Hvalid.
  destruct (controls_of h doc) as [cs|] eqn:Hcs;
    [|by unfold valid_document in Hvalid; rewrite Hcs in Hvalid].
  destruct (extract_valid h out doc ids cs Hvalid Hcs)
    as ([h1 out1] & r1 & Hrun1 & Hkept1 & Hvalid1 & Hid1).
  cbn [st_heap] in *.
  destruct (extract_valid h1 out1 r1 ids _ Hvalid1 Hkept1)
    as (st2 & r2 & Hrun2 & Hkept2 & _ & _).
  exists (State h1 out1), r1, st2, r2, (filter (selected h ids) cs).
  split; [done|]. split; [done|]. split; [done|].
  rewrite Hkept2. f_equal.
  rewrite (list_filter_iff_in (selected h1 ids) (selected h ids)).
  - by apply list_filter_filter_l.
  - intros v [_ Hv]%list_elem_of_filter. unfold selected. by rewrite (Hid1 v Hv).
Qed.

(** C8. On a valid document, a control whose [controlId] is missing or
    is not a string is not in the output, whatever the requested list,
    and the call succeeds. *)
Theorem control_without_string_id_dropped h out doc ids cs v m :
  valid_document h doc = true →
  controls_of h doc = Some cs →
  v ∈ cs →
  dict_at h v = Some m →
  (∀ s, m !! "controlId" ≠ Some (VStr s)) →
  ∃ st' r kept,
    extract_controls_by_id render doc ids (State h out) = (st', Ok r)
    ∧ controls_of (st_heap st') r = Some kept
    ∧ v ∉ kept.
Proof.
  intros Hvalid Hcs Hv Hm Hno.
  destruct (extract_valid h out doc ids cs Hvalid Hcs)
    as (st' & r & Hrun & Hkept & _ & _).
  exists st', r, (filter (selected h ids) cs).
  split; [done|]. split; [done|].
  intros [Hsel _]%list_elem_of_filter.
  apply Is_true_true, selected_spec in Hsel as (s & Hs & _).
  unfold control_id in Hs. rewrite Hm in Hs. simpl in Hs.
  destruct (m !! "controlId") as [x|] eqn:Hx; simplify_eq/=.
  by apply (Hno s).
Qed.

(** ** Documents without the two keys *)

Lemma extract_no_catalog h out d dm ids :
  h !! d = Some (ODict dm) →
  dm !! "catalog" = None →
  extract_controls_by_id render (VRef d) ids (State h out)
  = (State (<[fresh (dom h) := ODict dm]> h) out, Err ValueError).
Proof.
  intros Hd Hcat.
  unfold extract_controls_by_id.
  unfold py_bind at 1, py_copy. cbn [st_heap st_out]. rewrite Hd.
  unfold alloc; cbn [st_heap st_out].
  py_read.
  rewrite (lookup_alloc _ _ _ _ Hd).
  rewrite bool_decide_eq_false_2 by (rewrite Hcat; by intros [? ?]).
  done.
Qed.

Lemma extract_no_controls h out d dm c cm ids :
  h !! d = Some (ODict dm) →
  dm !! "catalog" = Some (VRef c) →
  h !! c = Some (ODict cm) →
  cm !! "securityControls" = None →
  extract_controls_by_id render (VRef d) ids (State h out)
  = (State (<[fresh (dom h) := ODict dm]> h) out, Err ValueError).
Proof.
  intros Hd Hcat Hc Hsc.
  unfold extract_controls_by_id.
  unfold py_bind at 1, py_copy. cbn [st_heap st_out]. rewrite Hd.
  unfold alloc; cbn [st_heap st_out].
  py_read.
  rewrite (lookup_alloc _ _ _ _ Hd).
  rewrite bool_decide_eq_true_2 by (rewrite Hcat; eauto).
  cbn [negb].
  unfold py_bind at 1. py_read. rewrite (lookup_alloc _ _ _ _ Hd), Hcat.
  py_read.
  rewrite (lookup_alloc _ _ _ _ Hc).
  rewrite bool_decide_eq_false_2 by (rewrite Hsc; by intros [? ?]).
  done.
Qed.


(** ** The caller's catalog *)

(** The copy is shallow: on every valid document, the catalog that the
    caller's document holds after the call is the annotated one. Its
    control list is a list made by the call. *)
Lemma caller_catalog_is_output_catalog h out doc ids cs :
  valid_document h doc = true →
  controls_of h doc = Some cs →
  ∃ st' r,
    extract_controls_by_id render doc ids (State h out) = (st', Ok r)
    ∧ catalog_of (st_heap st') doc = catalog_of (st_heap st') r
    ∧ controls_of (st_heap st') doc = Some (filter (selected h ids) cs).
Proof.
  intros (d & dm & c & cm & sl & cs' & L)%valid_layout Hcs.
  rewrite (layout_controls _ _ _ _ _ _ _ _ L) in Hcs. simplify_eq.
  destruct (extract_layout h out doc ids _ _ _ _ _ _ L)
    as (h' & fd & fl & hT & hD & Hrun & L' & _ & Hframe).
  cbn zeta in *. eexists (State h' _), (VRef fd). cbn [st_heap].
  split; [exact Hrun|].
  assert (Hcat : ∀ x, catalog_of h' x = catalog_of h' (VRef fd) →
                      controls_of h' x = Some (filter (selected h ids) cs)).
  { intros x Hx. rewrite <- (layout_controls _ _ _ _ _ _ _ _ L').
    unfold controls_of. by rewrite Hx. }
  assert (catalog_of h' doc = catalog_of h' (VRef fd)) as Heq; [|by auto].
  rewrite (layout_catalog _ _ _ _ _ _ _ _ L').
  destruct L as [-> Hd Hcat' Hc _ _ _]. destruct L' as [_ _ _ Hc' _ _ _].
  unfold catalog_of, dict_at.
  destruct (decide (d = c)) as [->|Hdc].
  - rewrite Hc'. simpl. simplify_eq.
    unfold annotated at 1. rewrite !lookup_insert_ne by done.
    rewrite Hcat'. simpl. by rewrite Hc'.
  - rewrite (Hframe _ _ Hd Hdc). simpl. rewrite Hcat'. simpl. by rewrite Hc'.
Qed.

End Verification.

(** ** The command line *)


(** ** Runs on the sample documents *)

Example py_str_nat_decimal :
  py_str_nat 0 = "0" ∧ py_str_nat 7 = "7" ∧ py_str_nat 22 = "22"
  ∧ py_str_nat 105 = "105".
Proof. by vm_compute. Qed.

(** Requesting [C], [A] and [X]: both controls [A] and the control [C]
    are kept, in catalog order; [X] is reported; the title is annotated. *)
Example sample_run :
  let run := extract_controls_by_id no_render (VRef 1) ["C"; "A"; "X"]
               (State sample []) in
  run.2 = Ok (VRef 10)
  ∧ controls_of (st_heap run.1) (VRef 10) = Some [VRef 4; VRef 6; VRef 9]
  ∧ st_out run.1 = [Warning {[ "X" ]}]
  ∧ (catalog_of (st_heap run.1) (VRef 10) ≫= (.!! "title"))
    = Some (VStr "T (Filtered - 3 controls)").
Proof. by vm_compute. Qed.

(** C1. The caller's document after [extract_controls_by_id(data, ["B"])]:
    the catalog that the caller passed in has lost five of its six
    controls and carries the annotated title and description. *)
Theorem caller_catalog_mutated :
  let run := extract_controls_by_id no_render (VRef 1) ["B"] (State sample []) in
  controls_of sample (VRef 1) = Some sample_list
  ∧ controls_of (st_heap run.1) (VRef 1) = Some [VRef 5]
  ∧ (catalog_of sample (VRef 1) ≫= (.!! "title")) = Some (VStr "T")
  ∧ (catalog_of (st_heap run.1) (VRef 1) ≫= (.!! "title"))
    = Some (VStr "T (Filtered - 1 controls)")
  ∧ (catalog_of sample (VRef 1) ≫= (.!! "description")) = Some (VStr "D")
  ∧ (catalog_of (st_heap run.1) (VRef 1) ≫= (.!! "description"))
    = Some (VStr ("D" ++ newline ++ newline
                  ++ "<p><strong>Note:</strong> This is a filtered version containing only 1 specific controls extracted from the original framework.</p>")).
Proof. by vm_compute. Qed.

(** Both runs of the first call, then of a second call on its output:
    the control list is the same, the title carries the suffix twice. *)
Example sample_refilter :
  let run1 := extract_controls_by_id no_render (VRef 1) ["C"; "A"; "X"]
                (State sample []) in
  let run2 := extract_controls_by_id no_render (VRef 10) ["C"; "A"; "X"] run1.1 in
  run2.2 = Ok (VRef 12)
  ∧ controls_of (st_heap run2.1) (VRef 12) = Some [VRef 4; VRef 6; VRef 9]
  ∧ (catalog_of (st_heap run2.1) (VRef 12) ≫= (.!! "title"))
    = Some (VStr "T (Filtered - 3 controls) (Filtered - 3 controls)").
Proof. by vm_compute. Qed.

(** A catalog with neither title nor description: the default title is
    used and the note follows an empty description. *)
Example sample_untitled_run :
  let run := extract_controls_by_id no_render (VRef 1) [] (State sample_untitled []) in
  run.2 = Ok (VRef 10)
  ∧ controls_of (st_heap run.1) (VRef 10) = Some []
  ∧ st_out run.1 = []
  ∧ (catalog_of (st_heap run.1) (VRef 10) ≫= (.!! "title"))
    = Some (VStr "NIST CSF 2.0 (Filtered - 0 controls)")
  ∧ (catalog_of (st_heap run.1) (VRef 10) ≫= (.!! "description"))
    = Some (VStr (newline ++ newline
                  ++ "<p><strong>Note:</strong> This is a filtered version containing only 0 specific controls extracted from the original framework.</p>")).
Proof. by vm_compute. Qed.


(** Likewise for a control that is not a mapping: [control.get] raises
    [AttributeError]. *)
Example string_control_abort :
  lacks_controls sample_string_control (VRef 1) = false
  ∧ (extract_controls_by_id no_render (VRef 1) ["ID.AM-03"]
       (State sample_string_control [])).2 = Err AttributeError.
Proof. by vm_compute. Qed.

(** ** The properties at the sample documents *)

Lemma filter_sound_complete_sample :
  valid_document sample (VRef 1) = true
  ∧ controls_of sample (VRef 1) = Some sample_list
  ∧ ∃ st' r kept,
      extract_controls_by_id no_render (VRef 1) ["C"; "A"; "X"] (State sample [])
      = (st', Ok r)
      ∧ controls_of (st_heap st') r = Some kept
      ∧ (∀ v, v ∈ kept →
           ∃ s, control_id (st_heap st') v = Some (VStr s) ∧ s ∈ ["C"; "A"; "X"])
      ∧ (∀ v s, v ∈ sample_list → control_id sample v = Some (VStr s) →
           s ∈ ["C"; "A"; "X"] → v ∈ kept)
      ∧ (∀ s, s ∈ ["C"; "A"; "X"] →
           length (filter (has_id (st_heap st') s) kept)
           = length (filter (has_id sample s) sample_list)).
Proof.
  split; [by vm_compute|]. split; [by vm_compute|].
  apply (filter_sound_complete no_render sample [] (VRef 1) ["C"; "A"; "X"]
           sample_list); by vm_compute.
Defined.

Lemma output_follows_catalog_order_sample :
  valid_document sample (VRef 1) = true
  ∧ controls_of sample (VRef 1) = Some sample_list
  ∧ ∃ st' r kept,
      extract_controls_by_id no_render (VRef 1) ["C"; "A"; "X"] (State sample [])
      = (st', Ok r)
      ∧ controls_of (st_heap st') r = Some kept
      ∧ kept = filter (selected sample ["C"; "A"; "X"]) sample_list
      ∧ sublist kept sample_list
      ∧ ∀ ids', ids' ≡ₚ ["C"; "A"; "X"] →
          ∃ st'' r',
            extract_controls_by_id no_render (VRef 1) ids' (State sample [])
            = (st'', Ok r')
            ∧ controls_of (st_heap st'') r' = Some kept.
Proof.
  split; [by vm_compute|]. split; [by vm_compute|].
  apply (output_follows_catalog_order no_render sample [] (VRef 1)
           ["C"; "A"; "X"] sample_list); by vm_compute.
Defined.


Lemma metadata_annotated_sample :
  valid_document sample (VRef 1) = true
  ∧ catalog_of sample (VRef 1) = Some sample_catalog
  ∧ sample_catalog !! "title" = Some (VStr "T")
  ∧ sample_catalog !! "description" = Some (VStr "D")
  ∧ ∃ st' r cm' kept,
      extract_controls_by_id no_render (VRef 1) ["C"; "A"; "X"] (State sample [])
      = (st', Ok r)
      ∧ catalog_of (st_heap st') r = Some cm'
      ∧ controls_of (st_heap st') r = Some kept
      ∧ cm' !! "title"
        = Some (VStr ("T" ++ " (Filtered - " ++ py_str_nat (length kept)
                      ++ " controls)"))
      ∧ cm' !! "description"
        = Some (VStr ("D" ++ newline ++ newline
                      ++ "<p><strong>Note:</strong> This is a filtered version containing only "
                      ++ py_str_nat (length kept)
                      ++ " specific controls extracted from the original framework.</p>")).
Proof.
  split; [by vm_compute|]. split; [by vm_compute|].
  split; [by vm_compute|]. split; [by vm_compute|].
  apply (metadata_annotated no_render sample [] (VRef 1) ["C"; "A"; "X"]
           sample_catalog "T" "D");
    [by vm_compute | by vm_compute | by vm_compute | left; by vm_compute].
Defined.

Lemma missing_title_defaults_sample :
  valid_document sample_untitled (VRef 1) = true
  ∧ catalog_of sample_untitled (VRef 1) = Some untitled_catalog
  ∧ untitled_catalog !! "title" = None
  ∧ ∃ st' r cm' kept,
      extract_controls_by_id no_render (VRef 1) ["B"] (State sample_untitled [])
      = (st', Ok r)
      ∧ catalog_of (st_heap st') r = Some cm'
      ∧ controls_of (st_heap st') r = Some kept
      ∧ cm' !! "title"
        = Some (VStr ("NIST CSF 2.0 (Filtered - " ++ py_str_nat (length kept)
                      ++ " controls)")).
Proof.
  split; [by vm_compute|]. split; [by vm_compute|]. split; [by vm_compute|].
  apply (missing_title_defaults no_render sample_untitled [] (VRef 1) ["B"]
           untitled_catalog); by vm_compute.
Defined.

Lemma not_found_is_advisory_sample :
  valid_document sample (VRef 1) = true
  ∧ controls_of sample (VRef 1) = Some sample_list
  ∧ ∃ st' r,
      let kept := filter (selected sample ["C"; "A"; "X"]) sample_list in
      let missing : gset string :=
        list_to_set ["C"; "A"; "X"]
        ∖ list_to_set (id_strings (st_heap st') kept) in
      extract_controls_by_id no_render (VRef 1) ["C"; "A"; "X"] (State sample [])
      = (st', Ok r)
      ∧ controls_of (st_heap st') r = Some kept
      ∧ (∀ s, s ∈ missing ↔
              s ∈ ["C"; "A"; "X"]
              ∧ ∀ v, v ∈ sample_list → control_id sample v ≠ Some (VStr s))
      ∧ st_out st'
        = ([] ++ if decide (missing = ∅) then [] else [Warning missing])%list
      ∧ ∀ ids', (∀ s, s ∈ ids' ↔ s ∈ ["C"; "A"; "X"] ∧ s ∉ missing) →
          ∃ st'' r',
            extract_controls_by_id no_render (VRef 1) ids' (State sample [])
            = (st'', Ok r')
            ∧ controls_of (st_heap st'') r' = Some kept.
Proof.
  split; [by vm_compute|]. split; [by vm_compute|].
  apply (not_found_is_advisory no_render sample [] (VRef 1) ["C"; "A"; "X"]
           sample_list); by vm_compute.
Defined.

Lemma refilter_same_controls_sample :
  valid_document sample (VRef 1) = true
  ∧ ∃ st1 r1 st2 r2 kept,
      extract_controls_by_id no_render (VRef 1) ["C"; "A"; "X"] (State sample [])
      = (st1, Ok r1)
      ∧ extract_controls_by_id no_render r1 ["C"; "A"; "X"] st1 = (st2, Ok r2)
      ∧ controls_of (st_heap st1) r1 = Some kept
      ∧ controls_of (st_heap st2) r2 = Some kept.
Proof.
  split; [by vm_compute|].
  apply (refilter_same_controls no_render sample [] (VRef 1) ["C"; "A"; "X"]);
    by vm_compute.
Defined.

Lemma control_without_string_id_dropped_sample :
  valid_document sample (VRef 1) = true
  ∧ controls_of sample (VRef 1) = Some sample_list
  ∧ VRef 8 ∈ sample_list
  ∧ dict_at sample (VRef 8) = Some {[ "controlId" := VNum 7 ]}
  ∧ ∃ st' r kept,
      extract_controls_by_id no_render (VRef 1) ["7"; "A"] (State sample [])
      = (st', Ok r)
      ∧ controls_of (st_heap st') r = Some kept
      ∧ VRef 8 ∉ kept.
Proof.
  assert (Hin : VRef 8 ∈ sample_list)
    by (apply list_elem_of_In; simpl; tauto).
  split; [by vm_compute|]. split; [by vm_compute|]. split; [exact Hin|].
  split; [by vm_compute|].
  apply (control_without_string_id_dropped no_render sample [] (VRef 1)
           ["7"; "A"] sample_list (VRef 8) {[ "controlId" := VNum 7 ]});
    [by vm_compute | by vm_compute | exact Hin | by vm_compute |].
  intros s. by vm_compute.
Defined.

(** * Further properties of the filter *)

Lemma py_bind_ext {A B} (m : py A) (k k' : A → py B) st :
  (∀ a st', k a st' = k' a st') → py_bind m k st = py_bind m k' st.
Proof. intros Hk. unfold py_bind. destruct (m st) as [st' [a|e]]; auto. Qed.

Lemma sublist_filter_impl {A} (P Q : A → Prop) `{!∀ x, Decision (P x)}
    `{!∀ x, Decision (Q x)} (l : list A) :
  (∀ x, x ∈ l → P x → Q x) → sublist (filter P l) (filter Q l).
Proof.
  induction l as [|a l IH]; intros HPQ; [done|].
  assert (IH' : sublist (filter P l) (filter Q l))
    by (apply IH; intros; apply HPQ; [by right|done]).
  rewrite !filter_cons.
  destruct (decide (P a)) as [HP|HP], (decide (Q a)) as [HQ|HQ].
  - by apply sublist_skip.
  - destruct HQ. apply HPQ; [by left|done].
  - by apply sublist_cons.
  - done.
Qed.

Section MoreOnFilter.

Variable render : heap → value → string.

Lemma filter_loop_same_elements ids ids' cs fc fi st :
  (∀ s, s ∈ ids ↔ s ∈ ids') →
  filter_loop ids cs fc fi st = filter_loop ids' cs fc fi st.
Proof.
  intros Hsame. revert fc fi st.
  induction cs as [|v cs IH]; intros fc fi st; [done|].
  cbn [filter_loop]. apply py_bind_ext. intros cid st'.
  assert (Hin : py_in cid ids = py_in cid ids').
  { destruct cid as [| | |s|]; try done. simpl.
    apply bool_decide_ext, Hsame. }
  rewrite Hin. destruct (py_in cid ids'); [|apply IH].
  apply py_bind_ext. intros cid' st''. apply IH.
Qed.

(** X1. The call depends on the requested list through its set of
    elements only: two lists with the same elements give the same
    result, the same store and the same output, on every input. *)
Theorem request_is_a_set data ids ids' st :
  (∀ s, s ∈ ids ↔ s ∈ ids') →
  extract_controls_by_id render data ids st
  = extract_controls_by_id render data ids' st.
Proof.
  intros Hsame.
  assert (Hset : (list_to_set ids : gset string) = list_to_set ids').
  { apply set_eq. intros s. rewrite !elem_of_list_to_set. apply Hsame. }
  unfold extract_controls_by_id. rewrite Hset.
  apply py_bind_ext. intros filtered_data st1.
  apply py_bind_ext. intros has_catalog st2.
  apply py_bind_ext. intros [|] st3; [done|].
  apply py_bind_ext. intros catalog st4.
  apply py_bind_ext. intros original_controls st5.
  apply py_bind_ext. intros cs st6.
  unfold py_bind at 1 3.
  by rewrite (filter_loop_same_elements ids ids' cs [] ∅ st6 Hsame).
Qed.

(** X2. With an empty requested list a valid document yields an empty
    control list, and nothing is printed. *)
Theorem empty_request_keeps_nothing h out doc :
  valid_document h doc = true →
  ∃ st' r,
    extract_controls_by_id render doc [] (State h out) = (st', Ok r)
    ∧ controls_of (st_heap st') r = Some []
    ∧ st_out st' = out.
Proof.
  intros Hvalid.
  destruct (controls_of h doc) as [cs|] eqn:Hcs;
    [|by unfold valid_document in Hvalid; rewrite Hcs in Hvalid].
  destruct (catalog_of h doc) as [cm|] eqn:Hcm;
    [|by unfold controls_of in Hcs; rewrite Hcm in Hcs].
  destruct (extract_valid_catalog render h out doc [] cm cs Hvalid Hcm Hcs)
    as (st' & r & cm' & hT & hD & Hrun & _ & Hkept & _ & _ & Hout).
  cbn zeta in *.
  assert (Hnone : filter (selected h []) cs = []).
  { clear. induction cs as [|v cs IH]; [done|].
    rewrite filter_cons_False; [done|].
    unfold selected. destruct (control_id h v) as [[| | |s|]|]; simpl; exact id. }
  rewrite Hnone in *. exists st', r. split; [done|]. split; [done|].
  rewrite Hout. rewrite decide_True; [by rewrite app_nil_r|].
  apply set_eq. intros s. rewrite elem_of_difference, elem_of_list_to_set.
  split; [intros [Hs _]; by apply not_elem_of_nil in Hs|by intros ?%not_elem_of_empty].
Qed.

(** X3. Requesting more never keeps less: when every identifier of [ids]
    is in [ids'], the controls kept for [ids] are a subsequence of the
    controls kept for [ids']. *)
Theorem larger_request_keeps_more h out doc ids ids' :
  valid_document h doc = true →
  (∀ s, s ∈ ids → s ∈ ids') →
  ∃ st1 r1 kept st2 r2 kept',
    extract_controls_by_id render doc ids (State h out) = (st1, Ok r1)
    ∧ controls_of (st_heap st1) r1 = Some kept
    ∧ extract_controls_by_id render doc ids' (State h out) = (st2, Ok r2)
    ∧ controls_of (st_heap st2) r2 = Some kept'
    ∧ sublist kept kept'.
Proof.
  intros Hvalid Hsub.
  destruct (controls_of h doc) as [cs|] eqn:Hcs;
    [|by unfold valid_document in Hvalid; rewrite Hcs in Hvalid].
  destruct (extract_valid render h out doc ids cs Hvalid Hcs)
    as (st1 & r1 & Hrun1 & Hkept1 & _ & _).
  destruct (extract_valid render h out doc ids' cs Hvalid Hcs)
    as (st2 & r2 & Hrun2 & Hkept2 & _ & _).
  eexists st1, r1, _, st2, r2, _.
  split; [done|]. split; [done|]. split; [done|]. split; [done|].
  apply sublist_filter_impl. intros v _.
  rewrite !Is_true_true, !selected_spec. intros (s & Hs & Hin). eauto.
Qed.

(** X4. Filtering the output of a first call with a second list keeps
    the controls selected by both lists, in catalog order; the two lists
    can be applied in either order. *)
Theorem successive_filters_intersect h out doc ids ids' cs :
  valid_document h doc = true →
  controls_of h doc = Some cs →
  ∃ st1 r1 st2 r2 st1' r1' st2' r2',
    extract_controls_by_id render doc ids (State h out) = (st1, Ok r1)
    ∧ extract_controls_by_id render r1 ids' st1 = (st2, Ok r2)
    ∧ controls_of (st_heap st2) r2
      = Some (filter (λ v, selected h ids v ∧ selected h ids' v) cs)
    ∧ extract_controls_by_id render doc ids' (State h out) = (st1', Ok r1')
    ∧ extract_controls_by_id render r1' ids st1' = (st2', Ok r2')
    ∧ controls_of (st_heap st2') r2' = controls_of (st_heap st2) r2.
Proof.
  intros Hvalid Hcs.
  assert (Htwice : ∀ a b,
    ∃ st1 r1 st2 r2,
      extract_controls_by_id render doc a (State h out) = (st1, Ok r1)
      ∧ extract_controls_by_id render r1 b st1 = (st2, Ok r2)
      ∧ controls_of (st_heap st2) r2
        = Some (filter (λ v, selected h b v ∧ selected h a v) cs)).
  { intros a b.
    destruct (extract_valid render h out doc a cs Hvalid Hcs)
      as ([h1 out1] & r1 & Hrun1 & Hkept1 & Hvalid1 & Hid1).
    cbn [st_heap] in *.
    destruct (extract_valid render h1 out1 r1 b _ Hvalid1 Hkept1)
      as (st2 & r2 & Hrun2 & Hkept2 & _ & _).
    exists (State h1 out1), r1, st2, r2.
    split; [done|]. split; [done|]. rewrite Hkept2. f_equal.
    rewrite (list_filter_iff_in (selected h1 b) (selected h b)).
    - apply list_filter_filter.
    - intros v [_ Hv]%list_elem_of_filter. unfold selected.
      by rewrite (Hid1 v Hv). }
  destruct (Htwice ids ids') as (st1 & r1 & st2 & r2 & H1 & H2 & H3).
  destruct (Htwice ids' ids) as (st1' & r1' & st2' & r2' & H1' & H2' & H3').
  exists st1, r1, st2, r2, st1', r1', st2', r2'.
  split; [done|]. split; [done|].
  split; [rewrite H3; f_equal; apply list_filter_iff; intros v; tauto|].
  split; [done|]. split; [done|].
  rewrite H3, H3'. f_equal. apply list_filter_iff. intros v. tauto.
Qed.

(** X5. On a valid document the call changes one object of the caller's
    store, the catalog mapping: after the call the catalog holds another
    mapping than before (its [securityControls] is a list made by the
    call), and every other object (the caller's top-level mapping when
    it is not the catalog itself, the original control list, every
    control record) is left as it was. *)
Theorem only_the_catalog_is_modified h out doc ids dm c :
  valid_document h doc = true →
  dict_at h doc = Some dm →
  dm !! "catalog" = Some (VRef c) →
  ∃ st' r cm cm' fl,
    extract_controls_by_id render doc ids (State h out) = (st', Ok r)
    ∧ h !! c = Some (ODict cm)
    ∧ st_heap st' !! c = Some (ODict cm')
    ∧ cm' !! "securityControls" = Some (VRef fl)
    ∧ h !! fl = None
    ∧ cm' ≠ cm
    ∧ ∀ l o, h !! l = Some o → l ≠ c → st_heap st' !! l = Some o.
Proof.
  intros (d & dm0 & c0 & cm & sl & cs & L)%valid_layout Hdm Hc.
  assert (c0 = c) as ->.
  { destruct L as [-> Hd Hcat _ _ _ _]. unfold dict_at in Hdm.
    rewrite Hd in Hdm. by simplify_eq. }
  destruct (extract_layout render h out doc ids _ _ _ _ _ _ L)
    as (h' & fd & fl & hT & hD & Hrun & L' & _ & Hframe).
  cbn zeta in *.
  assert (Hfl : h !! fl = None).
  { assert (Hit : py_iter (VRef sl) h = Ok cs)
      by (destruct L; simpl; by rewrite lay_sl0).
    destruct L as [-> Hd Hcat Hcc Hsc Hsl Hcs].
    destruct (extract_run render h out d dm0 c cm (VRef sl) cs ids
                Hd Hcat Hcc Hsc Hit Hcs) as (hT' & hD' & Hrun').
    cbn zeta in Hrun'. rewrite Hrun in Hrun'.
    apply (f_equal (λ x, st_heap x.1 !! c)) in Hrun'.
    cbn [fst st_heap] in Hrun'. rewrite lookup_insert_eq in Hrun'.
    destruct L' as [_ _ _ Hcc' _ _ _]. rewrite Hcc' in Hrun'.
    injection Hrun' as Hcm.
    apply (f_equal (λ m, m !! "securityControls")) in Hcm.
    rewrite !annotated_controls in Hcm. injection Hcm as ->.
    set (h1 := <[fresh (dom h) := ODict dm0]> h).
    assert (Hn : h1 !! fresh (dom h1) = None)
      by apply not_elem_of_dom, is_fresh.
    destruct (h !! fresh (dom h1)) as [o|] eqn:Ho; [|done].
    pose proof (lookup_alloc h _ o (ODict dm0) Ho) as Hx. fold h1 in Hx.
    congruence. }
  destruct L as [_ _ _ Hcc Hsc Hsl _]. destruct L' as [_ _ _ Hcc' Hsc' _ _].
  eexists (State h' _), _, cm, _, fl. cbn [st_heap].
  split; [exact Hrun|]. split; [done|]. split; [exact Hcc'|].
  split; [exact Hsc'|]. split; [done|]. split; [|exact Hframe].
  intros Heq. rewrite Heq, Hsc in Hsc'. by simplify_eq.
Qed.

(** X6. The document returned for a valid input is a new object whose
    top-level entries are those of the input (the same values under the
    same keys), and the catalog keeps every key other than
    [securityControls], [title] and [description] with its value. *)
Theorem output_keeps_other_entries h out doc ids dm cm :
  valid_document h doc = true →
  dict_at h doc = Some dm →
  catalog_of h doc = Some cm →
  ∃ st' l cm',
    extract_controls_by_id render doc ids (State h out) = (st', Ok (VRef l))
    ∧ h !! l = None
    ∧ dict_at (st_heap st') (VRef l) = Some dm
    ∧ catalog_of (st_heap st') (VRef l) = Some cm'
    ∧ ∀ key, key ≠ "securityControls" → key ≠ "title" → key ≠ "description" →
        cm' !! key = cm !! key.
Proof.
  intros (d & dm0 & c & cm0 & sl & cs & L)%valid_layout Hdm Hcm.
  rewrite (layout_catalog _ _ _ _ _ _ _ _ L) in Hcm. simplify_eq.
  assert (dm0 = dm) as ->.
  { destruct L as [-> Hd _ _ _ _ _]. unfold dict_at in Hdm.
    rewrite Hd in Hdm. by simplify_eq. }
  destruct (extract_layout render h out doc ids _ _ _ _ _ _ L)
    as (h' & fd & fl & hT & hD & Hrun & L' & _ & Hframe).
  cbn zeta in *. eexists (State h' _), fd, _. cbn [st_heap].
  split; [exact Hrun|].
  split.
  { assert (Hit : py_iter (VRef sl) h = Ok cs)
      by (destruct L; simpl; by rewrite lay_sl0).
    destruct L as [-> Hd Hcat Hc Hsc Hsl Hcs].
    destruct (extract_run render h out d dm c cm (VRef sl) cs ids
                Hd Hcat Hc Hsc Hit Hcs) as (hT' & hD' & Hrun').
    cbn zeta in Hrun'. rewrite Hrun in Hrun'. simplify_eq.
    apply not_elem_of_dom, is_fresh. }
  split; [destruct L' as [_ Hfd' _ _ _ _ _]; unfold dict_at; by rewrite Hfd'|].
  split; [exact (layout_catalog _ _ _ _ _ _ _ _ L')|].
  intros key H1 H2 H3. unfold annotated. by rewrite !lookup_insert_ne.
Qed.

End MoreOnFilter.

(** * The summary and [main] *)

Section ProgramProperties.

Variable render : heap → value → string.
Variables FS L : Type.
Variable read_json_file : string → FS → heap → heap * @loaded L.
Variable write_json_file : value → string → heap → FS → FS * option L.

Abbreviation io' := (io FS L).

Lemma io_bind_done {A B} (m : io' A) (k : A → io' B) w w' a :
  m w = (w', Done a) → io_bind FS L m k w = k a w'.
Proof. intros H. unfold io_bind. by rewrite H. Qed.

Lemma io_bind_raise {A B} (m : io' A) (k : A → io' B) w w' e :
  m w = (w', Raise e) → io_bind FS L m k w = (w', Raise e).
Proof. intros H. unfold io_bind. by rewrite H. Qed.

Lemma lift_read {A} (f : heap → result A) (w : world FS L) :
  lift FS L (read f) w
  = (w, match f (w_heap w) with Ok a => Done a | Err e => Raise (Py e) end).
Proof.
  destruct w as [h out fs]. unfold lift, read. simpl. by rewrite app_nil_r.
Qed.

Lemma lift_get_new h out (fs : FS) l m key dflt :
  h !! l = Some (ODict m) →
  lift FS L (py_get_new (VRef l) key dflt) (World h out fs)
  = (World (<[fresh (dom h) := dflt]> h) out fs,
     Done (default (VRef (fresh (dom h))) (m !! key))).
Proof.
  intros Hl. unfold lift, py_get_new. cbn [w_heap w_stdout w_files].
  unfold py_bind at 1, read at 1. cbn [st_heap st_out py_get]. rewrite Hl.
  unfold py_bind at 1, alloc. cbn [st_heap st_out].
  unfold read. cbn [st_heap st_out py_get].
  rewrite (lookup_alloc _ _ _ _ Hl). simpl. by rewrite app_nil_r.
Qed.

Lemma summary_loop_run h out (fs : FS) cs :
  forallb (is_control h) cs = true →
  summary_loop render FS L cs (World h out fs)
  = (World h (out ++ (Line <$> flat_map (control_lines render h) cs)) fs, Done tt).
Proof.
  revert out. induction cs as [|v cs IH]; intros out Hcs.
  - simpl. unfold io_ret. by rewrite app_nil_r.
  - apply andb_true_iff in Hcs as [Hv Hcs].
    apply is_control_dict in Hv as (l & m & -> & Hl).
    cbn [summary_loop].
    assert (Hget : ∀ key dflt,
      py_get (VRef l) key dflt h = Ok (default dflt (m !! key)))
      by (intros; unfold py_get; by rewrite Hl).
    do 3 (erewrite io_bind_done; [|by rewrite lift_read, Hget]).
    erewrite io_bind_done; [|by rewrite lift_read, py_format_text].
    erewrite io_bind_done; [|reflexivity]. cbn [w_heap w_stdout w_files].
    erewrite io_bind_done; [|by rewrite lift_read, py_format_text].
    erewrite io_bind_done; [|reflexivity]. cbn [w_heap w_stdout w_files].
    erewrite io_bind_done; [|by rewrite lift_read, py_format_text].
    erewrite io_bind_done; [|reflexivity]. cbn [w_heap w_stdout w_files].
    erewrite io_bind_done; [|reflexivity]. cbn [w_heap w_stdout w_files].
    rewrite IH by done. do 2 f_equal.
    rewrite <- !app_assoc. f_equal. cbn [flat_map]. rewrite fmap_app.
    unfold control_lines, field_text, dict_at. by rewrite Hl.
Qed.

(** The summary of a document that follows the data model wherever it
    holds the two keys. *)
Lemma summary_run (w : world FS L) doc :
  mapping_document (w_heap w) doc = true →
  ∃ h',
    print_control_summary render FS L doc w
    = (World h'
         (w_stdout w
          ++ (Line <$> summary_lines render h'
                         (default [] (controls_of (w_heap w) doc))))
         (w_files w),
       Done tt)
    ∧ (∀ l o, w_heap w !! l = Some o → h' !! l = Some o)
    ∧ (∀ v, is_control (w_heap w) v = true → dict_at h' v = dict_at (w_heap w) v).
Proof.
  destruct w as [h out fs]. cbn [w_heap w_stdout w_files]. intros Hmd.
  destruct (dict_at h doc) as [dm|] eqn:Hdm;
    [|by unfold mapping_document in Hmd; rewrite Hdm in Hmd].
  assert (∃ d, doc = VRef d ∧ h !! d = Some (ODict dm)) as (d & -> & Hd).
  { unfold dict_at in Hdm. destruct doc as [| | | |d]; try done.
    destruct (h !! d) as [[?|?]|] eqn:E; simplify_eq; eauto. }
  set (e1 := fresh (dom h)). set (h1 := <[e1 := ODict ∅]> h).
  set (e2 := fresh (dom h1)). set (h2 := <[e2 := OList []]> h1).
  assert (Hold : ∀ l o, h !! l = Some o → h2 !! l = Some o).
  { intros l o Hl. unfold h2, e2. apply lookup_alloc. by apply lookup_alloc. }
  assert (Hctl : ∀ v, is_control h v = true → dict_at h2 v = dict_at h v).
  { intros v (l & m & -> & Hl)%is_control_dict. unfold dict_at.
    by rewrite (Hold _ _ Hl), Hl. }
  assert (Htail : ∀ sl cs,
    h2 !! sl = Some (OList cs) →
    forallb (is_control h2) cs = true →
    io_bind FS L (lift FS L (read (py_len (VRef sl))))
      (λ n, io_bind FS L (say FS L (newline ++ "Extracted " ++ py_str_nat n ++ " controls:"))
         (λ _, io_bind FS L (say FS L (dashes 80))
            (λ _, io_bind FS L (lift FS L (read (py_iter (VRef sl))))
               (λ items, summary_loop render FS L items)))) (World h2 out fs)
    = (World h2 (out ++ (Line <$> summary_lines render h2 cs)) fs, Done tt)).
  { intros sl cs Hsl Hcs.
    erewrite io_bind_done;
      [|by (rewrite lift_read; cbn [w_heap py_len]; rewrite Hsl)].
    erewrite io_bind_done; [|reflexivity]. cbn [w_heap w_stdout w_files].
    erewrite io_bind_done; [|reflexivity]. cbn [w_heap w_stdout w_files].
    erewrite io_bind_done;
      [|by (rewrite lift_read; cbn [w_heap py_iter]; rewrite Hsl)].
    rewrite summary_loop_run by done.
    unfold summary_lines. do 2 f_equal. rewrite <- !app_assoc.
    by rewrite !fmap_cons. }
  assert (He2 : h2 !! e2 = Some (OList [])) by apply lookup_insert_eq.
  assert (Hmd' := Hmd). unfold mapping_document in Hmd'. rewrite Hdm in Hmd'.
  unfold print_control_summary.
  erewrite io_bind_done; [|by apply lift_get_new]. fold e1 h1.
  destruct (dm !! "catalog") as [cat|] eqn:Hcat; cbn [default].
  - destruct (dict_at h cat) as [cm|] eqn:Hcm; [|done].
    assert (∃ c, cat = VRef c ∧ h !! c = Some (ODict cm)) as (c & -> & Hc).
    { unfold dict_at in Hcm. destruct cat as [| | | |c]; try done.
      destruct (h !! c) as [[?|?]|] eqn:E; simplify_eq; eauto. }
    assert (Hc1 : h1 !! c = Some (ODict cm)) by by apply lookup_alloc.
    erewrite io_bind_done; [|by apply lift_get_new]. fold e2 h2.
    destruct (cm !! "securityControls") as [sc|] eqn:Hsc; cbn [default].
    + unfold valid_document in Hmd'.
      destruct (controls_of h (VRef d)) as [cs|] eqn:Hco; [|done].
      assert (Hls : list_at h sc = Some cs).
      { unfold controls_of, catalog_of, dict_at in Hco. rewrite Hd in Hco.
        simpl in Hco. rewrite Hcat in Hco. simpl in Hco. rewrite Hc in Hco.
        simpl in Hco. rewrite Hsc in Hco. exact Hco. }
      assert (∃ sl, sc = VRef sl ∧ h !! sl = Some (OList cs)) as (sl & -> & Hsl).
      { unfold list_at in Hls. destruct sc as [| | | |sl]; try done.
        destruct (h !! sl) as [[?|?]|] eqn:E; simplify_eq; eauto. }
      rename Hmd' into Hvalid.
      cbn [default].
      exists h2. split; [|by split].
      apply Htail; [by apply Hold|].
      apply forallb_forall. intros v Hv%list_elem_of_In.
      pose proof (forallb_elem_of _ _ _ Hvalid Hv) as Hic.
      unfold is_control. rewrite (Hctl v Hic).
      unfold is_control in Hic. by destruct (dict_at h v).
    + assert (Hco : controls_of h (VRef d) = None).
      { unfold controls_of, catalog_of, dict_at. rewrite Hd. simpl.
        rewrite Hcat. simpl. rewrite Hc. simpl. by rewrite Hsc. }
      rewrite Hco. cbn [default].
      exists h2. split; [by apply Htail|by split].
  - assert (Hco : controls_of h (VRef d) = None).
    { unfold controls_of, catalog_of, dict_at. rewrite Hd. simpl.
      by rewrite Hcat. }
    rewrite Hco. cbn [default].
    assert (He1 : h1 !! e1 = Some (ODict ∅)) by apply lookup_insert_eq.
    erewrite io_bind_done; [|by apply lift_get_new]. fold e2 h2.
    rewrite lookup_empty. cbn [default].
    exists h2. split; [by apply Htail|by split].
Qed.

Lemma valid_is_mapping h doc :
  valid_document h doc = true → mapping_document h doc = true.
Proof.
  intros Hvalid.
  destruct (valid_layout h doc Hvalid)
    as (d & dm & c & cm & sl & cs & [-> Hd Hcat Hc Hsc Hsl Hcs]).
  unfold mapping_document, dict_at. by rewrite Hd, Hcat, Hc, Hsc.
Qed.

Lemma lacking_has_no_controls h doc :
  mapping_document h doc = true →
  lacks_controls h doc = true →
  controls_of h doc = None.
Proof.
  unfold mapping_document, lacks_controls, lacks_key, controls_of, catalog_of.
  destruct (dict_at h doc) as [dm|]; [|done]. simpl.
  destruct (dm !! "catalog") as [cat|]; [|done]. simpl.
  destruct (dict_at h cat) as [cm|]; [|done]. simpl.
  intros _ Hsc%bool_decide_eq_true. by rewrite Hsc.
Qed.

(** X7. For a valid document the summary prints the header with the
    number of controls, a rule of 80 dashes, and for each control, in the
    order of the list, its identifier, family and title (with the texts
    [Unknown], [Unknown family] and [No title] for missing keys) and a
    rule: two lines and four per control.  It raises nothing, writes no
    file and leaves every object of the store as it was. *)
Theorem summary_lists_every_control (w : world FS L) doc cs :
  valid_document (w_heap w) doc = true →
  controls_of (w_heap w) doc = Some cs →
  ∃ h',
    print_control_summary render FS L doc w
    = (World h' (w_stdout w ++ (Line <$> summary_lines render h' cs)) (w_files w),
       Done tt)
    ∧ length (summary_lines render h' cs) = 2 + 4 * length cs
    ∧ (∀ l o, w_heap w !! l = Some o → h' !! l = Some o)
    ∧ (∀ v, v ∈ cs → dict_at h' v = dict_at (w_heap w) v).
Proof.
  intros Hvalid Hcs.
  destruct (summary_run w doc (valid_is_mapping _ _ Hvalid))
    as (h' & Hrun & Hframe & Hctl).
  rewrite Hcs in Hrun. cbn [default] in Hrun.
  exists h'. split; [done|]. split; [|split; [done|]].
  - assert (Hlen : length (flat_map (control_lines render h') cs)
                   = 4 * length cs).
    { clear. induction cs as [|v cs IH]; [done|].
      cbn [flat_map]. rewrite length_app, IH. simpl. lia. }
    unfold summary_lines. cbn [length]. rewrite Hlen. lia.
  - intros v Hv. apply Hctl. unfold valid_document in Hvalid.
    rewrite Hcs in Hvalid. by eapply forallb_elem_of.
Qed.

Lemma extract_lacking h out doc ids :
  mapping_document h doc = true →
  lacks_controls h doc = true →
  ∃ h', extract_controls_by_id render doc ids (State h out)
        = (State h' out, Err ValueError).
Proof.
  unfold mapping_document, lacks_controls, lacks_key.
  destruct (dict_at h doc) as [dm|] eqn:Hdm; [|done].
  assert (∃ d, doc = VRef d ∧ h !! d = Some (ODict dm)) as (d & -> & Hd).
  { unfold dict_at in Hdm. destruct doc as [| | | |d]; try done.
    destruct (h !! d) as [[?|?]|] eqn:E; simplify_eq; eauto. }
  destruct (dm !! "catalog") as [cat|] eqn:Hcat.
  - destruct (dict_at h cat) as [cm|] eqn:Hcm; [|done].
    assert (∃ c, cat = VRef c ∧ h !! c = Some (ODict cm)) as (c & -> & Hc).
    { unfold dict_at in Hcm. destruct cat as [| | | |c]; try done.
      destruct (h !! c) as [[?|?]|] eqn:E; simplify_eq; eauto. }
    intros _ Hsc%bool_decide_eq_true.
    eexists. by apply (extract_no_controls render h out d dm c cm).
  - intros _ _. eexists. by apply extract_no_catalog.
Qed.

(** X8. On a document that is a mapping without the key [catalog], or
    whose catalog is a mapping without the key [securityControls], the
    filter raises its [ValueError] and the summary does not fail: it
    reports zero controls.  (A catalog that is not a mapping is another
    matter: see [string_catalog_summary].) *)
Theorem summary_without_controls (w : world FS L) doc ids :
  mapping_document (w_heap w) doc = true →
  lacks_controls (w_heap w) doc = true →
  (∃ h',
     extract_controls_by_id render doc ids (State (w_heap w) [])
     = (State h' [], Err ValueError))
  ∧ ∃ h',
      print_control_summary render FS L doc w
      = (World h'
           (w_stdout w ++ [Line (newline ++ "Extracted 0 controls:");
                           Line (dashes 80)])
           (w_files w),
         Done tt).
Proof.
  intros Hmd Hlacks. split; [by apply extract_lacking|].
  destruct (summary_run w doc Hmd) as (h' & Hrun & _).
  rewrite (lacking_has_no_controls _ _ Hmd Hlacks) in Hrun.
  exists h'. exact Hrun.
Qed.

(** ** [main] *)

Abbreviation main' := (main render FS L read_json_file write_json_file).

Lemma io_bind_inv {A B} (m : io' A) (k : A → io' B) w w' b :
  io_bind FS L m k w = (w', Done b) →
  ∃ w1 a, m w = (w1, Done a) ∧ k a w1 = (w', Done b).
Proof.
  unfold io_bind. destruct (m w) as [w1 [a|e]]; [eauto|done].
Qed.

Lemma lift_run {A} (m : py A) h out (fs : FS) st' r :
  m (State h []) = (st', r) →
  lift FS L m (World h out fs)
  = (World (st_heap st') (out ++ (Event <$> st_out st')) fs,
     match r with Ok a => Done a | Err e => Raise (Py e) end).
Proof. intros H. unfold lift. cbn [w_heap w_stdout w_files]. by rewrite H. Qed.

Lemma keeps_files_ret {A} (a : A) : keeps_files (io_ret FS L a).
Proof. intros w w' r. unfold io_ret. by intros [= <- _]. Qed.

Lemma keeps_files_say s : keeps_files (say FS L s).
Proof. intros w w' r. unfold say. by intros [= <- _]. Qed.

Lemma keeps_files_lift {A} (m : py A) : keeps_files (lift FS L m).
Proof.
  intros w w' r. unfold lift. destruct (m _) as [st' x]. by intros [= <- _].
Qed.

Lemma keeps_files_bind {A B} (m : io' A) (k : A → io' B) :
  keeps_files m → (∀ a, keeps_files (k a)) → keeps_files (io_bind FS L m k).
Proof.
  intros Hm Hk w w' r. unfold io_bind.
  destruct (m w) as [w1 [a|e]] eqn:Hmw.
  - intros Hka. rewrite (Hk a _ _ _ Hka). by eapply Hm.
  - intros [= <- _]. by eapply Hm.
Qed.

Lemma keeps_files_summary_loop cs : keeps_files (summary_loop render FS L cs).
Proof.
  induction cs as [|v cs IH]; [apply keeps_files_ret|].
  cbn [summary_loop].
  repeat first
    [ exact IH
    | apply keeps_files_lift
    | apply keeps_files_say
    | apply keeps_files_bind; [|intros ?] ].
Qed.

Lemma keeps_files_summary doc :
  keeps_files (print_control_summary render FS L doc).
Proof.
  unfold print_control_summary.
  repeat first
    [ apply keeps_files_summary_loop
    | apply keeps_files_lift
    | apply keeps_files_say
    | apply keeps_files_bind; [|intros ?] ].
Qed.

(** X9. An exit status of 0 means that the work was done: when [main]
    returns 0, the input was read and parsed, the filter returned a
    document for it, the writer was called on that document and the
    output path and succeeded, the files are the ones that write left,
    and the last line printed is the success message. *)
Theorem main_zero_means_written args (w w' : world FS L) :
  main' args w = (w', Done 0) →
  ∃ h1 doc stF r,
    read_json_file (input args) (w_files w) (w_heap w) = (h1, Parsed doc)
    ∧ extract_controls_by_id render doc (main_control_ids args) (State h1 [])
      = (stF, Ok r)
    ∧ write_json_file r (output args) (st_heap stF) (w_files w)
      = (w_files w', None)
    ∧ ∃ pre n,
        w_stdout w'
        = (pre ++ [Line (newline ++ "Successfully extracted "
                         ++ py_str_nat n ++ " controls")])%list.
Proof.
  unfold main, try_except. destruct w as [h out fs].
  match goal with |- context [match ?b ?x with _ => _ end] =>
    destruct (b x) as [w1 [code|e]] eqn:Hbody end;
    [|unfold io_bind, report, io_ret; by intros [= _]].
  intros [= -> ->].
  apply io_bind_inv in Hbody as (wa & [] & Ha & Hbody).
  unfold say in Ha. injection Ha as <-.
  apply io_bind_inv in Hbody as (wb & doc & Hb & Hbody).
  unfold load_nist_csf_file in Hb. cbn [w_heap w_stdout w_files] in Hb.
  destruct (read_json_file (input args) fs h) as [h1 rd] eqn:Hread.
  destruct rd as [doc'| | |l]; try by injection Hb.
  injection Hb as <- <-.
  apply io_bind_inv in Hbody as (wc & [] & Hc & Hbody).
  unfold say in Hc. injection Hc as <-. cbn [w_heap w_stdout w_files] in Hbody.
  apply io_bind_inv in Hbody as (wd & r & Hd & Hbody).
  unfold lift in Hd. cbn [w_heap w_stdout w_files] in Hd.
  destruct (extract_controls_by_id render doc' (main_control_ids args)
              (State h1 [])) as [stF [r'|e]] eqn:Hrun; [|by injection Hd].
  injection Hd as <- <-.
  apply io_bind_inv in Hbody as (we & [] & He & Hbody).
  unfold save_filtered_controls in He. cbn [w_heap w_stdout w_files] in He.
  destruct (write_json_file r' (output args) (st_heap stF) fs)
    as [fs' [l|]] eqn:Hwr; [by injection He|].
  injection He as <-.
  apply io_bind_inv in Hbody as (wf & [] & Hf & Hbody).
  assert (Hff : w_files wf = fs').
  { destruct (summary args).
    - by rewrite (keeps_files_summary _ _ _ _ Hf).
    - by rewrite (keeps_files_ret _ _ _ _ Hf). }
  apply io_bind_inv in Hbody as (wg & catalog & Hg & Hbody).
  pose proof (keeps_files_lift _ _ _ _ Hg) as Hgf.
  apply io_bind_inv in Hbody as (wh & ctl & Hh & Hbody).
  pose proof (keeps_files_lift _ _ _ _ Hh) as Hhf.
  apply io_bind_inv in Hbody as (wi & n & Hi & Hbody).
  pose proof (keeps_files_lift _ _ _ _ Hi) as Hif.
  apply io_bind_inv in Hbody as (wj & [] & Hj & Hbody).
  unfold io_ret in Hbody. injection Hbody as <-.
  unfold say in Hj. injection Hj as <-. cbn [w_files w_stdout].
  exists h1, doc', stF, r'. split; [done|]. split; [done|].
  split; [|eauto]. rewrite Hwr. f_equal. congruence.
Qed.

(** X10. When the input cannot be loaded, [main] prints the loading line
    and the report of the exception, returns 1, and neither filters nor
    writes: the files are as they were.  The exception is
    [FileNotFoundError] for a missing file, [TypeError] for a file that
    is not JSON, and the library's own exception otherwise. *)
Theorem main_load_failure args (w : world FS L) h1 r :
  read_json_file (input args) (w_files w) (w_heap w) = (h1, r) →
  (∀ v, r ≠ Parsed v) →
  ∃ e,
    main' args w
    = (World h1
         (w_stdout w ++ [Line ("Loading NIST CSF file: " ++ input args);
                         ErrorLine e])
         (w_files w),
       Done 1)
    ∧ (r = NotFound → e = FileNotFoundError)
    ∧ (r = Undecodable → e = Py TypeError)
    ∧ (∀ l, r = Failed l → e = Other l).
Proof.
  intros Hread Hr. destruct w as [h out fs]. cbn [w_heap w_stdout w_files] in *.
  unfold main, try_except.
  erewrite io_bind_done; [|reflexivity]. cbn [w_heap w_stdout w_files].
  unfold io_bind at 1, load_nist_csf_file. cbn [w_heap w_stdout w_files].
  rewrite Hread.
  destruct r as [v| | |l]; [by destruct (Hr v)|..];
    (eexists; split;
     [unfold io_bind, report, io_ret; cbn [w_heap w_stdout w_files];
      by rewrite <- app_assoc|]);
    repeat split; intros; by simplify_eq.
Qed.

(** X11. When the loaded document lacks the key [catalog] or the key
    [securityControls], [main] prints the two progress lines and the
    report of the [ValueError], returns 1 and writes nothing: the files
    are as they were. *)
Theorem main_structure_error args (w : world FS L) h1 doc :
  read_json_file (input args) (w_files w) (w_heap w) = (h1, Parsed doc) →
  mapping_document h1 doc = true →
  lacks_controls h1 doc = true →
  ∃ h',
    main' args w
    = (World h'
         (w_stdout w
          ++ [Line ("Loading NIST CSF file: " ++ input args);
              Line ("Extracting " ++ py_str_nat (length (main_control_ids args))
                    ++ " specified controls...");
              ErrorLine (Py ValueError)])
         (w_files w),
       Done 1).
Proof.
  intros Hread Hmd Hlacks. destruct w as [h out fs].
  cbn [w_heap w_stdout w_files] in *.
  assert (∃ h', extract_controls_by_id render doc (main_control_ids args)
                  (State h1 []) = (State h' [], Err ValueError)) as [h' Hrun].
  { unfold mapping_document, lacks_controls, lacks_key in *.
    destruct (dict_at h1 doc) as [dm|] eqn:Hdm; [|done].
    assert (∃ d, doc = VRef d ∧ h1 !! d = Some (ODict dm)) as (d & -> & Hd).
    { unfold dict_at in Hdm. destruct doc as [| | | |d]; try done.
      destruct (h1 !! d) as [[?|?]|] eqn:E; simplify_eq; eauto. }
    destruct (dm !! "catalog") as [cat|] eqn:Hcat.
    - destruct (dict_at h1 cat) as [cm|] eqn:Hcm; [|done].
      assert (∃ c, cat = VRef c ∧ h1 !! c = Some (ODict cm)) as (c & -> & Hc).
      { unfold dict_at in Hcm. destruct cat as [| | | |c]; try done.
        destruct (h1 !! c) as [[?|?]|] eqn:E; simplify_eq; eauto. }
      apply bool_decide_eq_true in Hlacks.
      eexists. by apply (extract_no_controls render h1 [] d dm c cm).
    - eexists. by apply extract_no_catalog. }
  exists h'. unfold main, try_except.
  erewrite io_bind_done; [|reflexivity]. cbn [w_heap w_stdout w_files].
  erewrite io_bind_done;
    [|by (unfold load_nist_csf_file; cbn [w_heap w_stdout w_files];
          rewrite Hread)].
  erewrite io_bind_done; [|reflexivity]. cbn [w_heap w_stdout w_files].
  erewrite io_bind_raise; [|by rewrite (lift_run _ _ _ _ _ _ Hrun)].
  unfold io_bind, report, io_ret. cbn [w_heap w_stdout w_files st_heap st_out].
  rewrite fmap_nil, app_nil_r, <- !app_assoc. done.
Qed.

(** The steps of [main] up to the write, on a valid document. *)
Lemma main_filter_steps args (w : world FS L) h1 doc cs :
  read_json_file (input args) (w_files w) (w_heap w) = (h1, Parsed doc) →
  valid_document h1 doc = true →
  controls_of h1 doc = Some cs →
  ∃ stF r,
    extract_controls_by_id render doc (main_control_ids args) (State h1 [])
    = (stF, Ok r)
    ∧ controls_of (st_heap stF) r
      = Some (filter (selected h1 (main_control_ids args)) cs)
    ∧ valid_document (st_heap stF) r = true
    ∧ ∀ k : value → io' nat,
        try_except FS L
          (io_bind FS L (say FS L ("Loading NIST CSF file: " ++ input args))
             (λ _, io_bind FS L (load_nist_csf_file FS L read_json_file (input args))
                (λ nist_data,
                   io_bind FS L
                     (say FS L ("Extracting "
                                ++ py_str_nat (length (main_control_ids args))
                                ++ " specified controls..."))
                     (λ _, io_bind FS L
                             (lift FS L (extract_controls_by_id render nist_data
                                           (main_control_ids args)))
                             k))))
          (λ e, io_bind FS L (report FS L e) (λ _, io_ret FS L 1)) w
        = try_except FS L (k r)
            (λ e, io_bind FS L (report FS L e) (λ _, io_ret FS L 1))
            (World (st_heap stF)
               (w_stdout w
                ++ [Line ("Loading NIST CSF file: " ++ input args);
                    Line ("Extracting "
                          ++ py_str_nat (length (main_control_ids args))
                          ++ " specified controls...")]
                ++ (Event <$> st_out stF))
               (w_files w)).
Proof.
  intros Hread Hvalid Hcs. destruct w as [h out fs].
  cbn [w_heap w_stdout w_files] in *.
  destruct (extract_valid render h1 [] doc (main_control_ids args) cs Hvalid Hcs)
    as (stF & r & Hrun & Hkept & Hvalid' & _).
  exists stF, r. split; [done|]. split; [done|]. split; [done|].
  intros k. unfold try_except.
  erewrite io_bind_done; [|reflexivity]. cbn [w_heap w_stdout w_files].
  erewrite io_bind_done;
    [|by (unfold load_nist_csf_file; cbn [w_heap w_stdout w_files];
          rewrite Hread)].
  erewrite io_bind_done; [|reflexivity]. cbn [w_heap w_stdout w_files].
  erewrite io_bind_done; [|by rewrite (lift_run _ _ _ _ _ _ Hrun)].
  by rewrite <- !app_assoc.
Qed.

(** X12. On a valid document, when the write that [main] makes (of the
    filtered document, under the output path) succeeds, [main] returns
    0; the files are the ones that write left; and the console shows, in
    order, the two progress lines, the warning of the filter if any, the
    confirmation of the write, the summary when it was asked for, and
    the success line with the number of controls kept. *)
Theorem main_success args (w : world FS L) h1 doc cs stF r fs' :
  read_json_file (input args) (w_files w) (w_heap w) = (h1, Parsed doc) →
  valid_document h1 doc = true →
  controls_of h1 doc = Some cs →
  extract_controls_by_id render doc (main_control_ids args) (State h1 [])
  = (stF, Ok r) →
  write_json_file r (output args) (st_heap stF) (w_files w) = (fs', None) →
  let kept := filter (selected h1 (main_control_ids args)) cs in
  ∃ w',
    controls_of (st_heap stF) r = Some kept
    ∧ main' args w = (w', Done 0)
    ∧ w_files w' = fs'
    ∧ w_stdout w'
      = (w_stdout w
         ++ [Line ("Loading NIST CSF file: " ++ input args);
             Line ("Extracting " ++ py_str_nat (length (main_control_ids args))
                   ++ " specified controls...")]
         ++ (Event <$> st_out stF)
         ++ [Line ("Filtered controls saved to: " ++ output args)]
         ++ (if summary args
             then Line <$> summary_lines render (w_heap w') kept
             else [])
         ++ [Line (newline ++ "Successfully extracted "
                   ++ py_str_nat (length kept) ++ " controls")])%list.
Proof.
  intros Hread Hvalid Hcs Hrun0 Hwr kept.
  destruct (main_filter_steps args w h1 doc cs Hread Hvalid Hcs)
    as (stF0 & r0 & Hrun & Hkept & Hvalid' & Hsteps).
  rewrite Hrun0 in Hrun. injection Hrun as <- <-.
  unfold main. rewrite Hsteps. clear Hsteps.
  destruct w as [h out fs]. cbn [w_heap w_stdout w_files] in *.
  destruct stF as [hF outF]. cbn [st_heap st_out] in *.
  destruct (valid_layout hF r Hvalid')
    as (d & dm & c & cm & sl & kept' & L0).
  rewrite (layout_controls _ _ _ _ _ _ _ _ L0) in Hkept. simplify_eq.
  fold kept in L0.
  pose proof (layout_controls _ _ _ _ _ _ _ _ L0) as Hco.
  destruct L0 as [-> Hd Hcat Hc Hsc Hsl Hctl].
  set (out1 := (out ++ [Line ("Loading NIST CSF file: " ++ input args);
                        Line ("Extracting "
                              ++ py_str_nat (length (main_control_ids args))
                              ++ " specified controls...")]
                ++ (Event <$> outF))%list).
  set (out2 := (out1 ++ [Line ("Filtered controls saved to: " ++ output args)])%list).
  assert (Hsum : ∃ hS,
    (if summary args then print_control_summary render FS L (VRef d)
     else io_ret FS L tt) (World hF out2 fs')
    = (World hS
         (out2 ++ if summary args then Line <$> summary_lines render hS kept
                  else [])
         fs', Done tt)
    ∧ ∀ l o, hF !! l = Some o → hS !! l = Some o).
  { destruct (summary args).
    - assert (Hv : valid_document hF (VRef d) = true) by done.
      destruct (summary_run (World hF out2 fs') (VRef d) (valid_is_mapping _ _ Hv))
        as (hS & HrunS & HframeS & _).
      cbn [w_heap w_stdout w_files] in *. rewrite Hco in HrunS.
      exists hS. split; [exact HrunS|exact HframeS].
    - exists hF. unfold io_ret. by rewrite app_nil_r. }
  destruct Hsum as (hS & HrunS & HframeS).
  eexists. split; [done|].
  unfold try_except.
  erewrite io_bind_done;
    [|by (unfold save_filtered_controls; cbn [w_heap w_stdout w_files];
          rewrite Hwr)].
  fold out2.
  erewrite io_bind_done; [|exact HrunS].
  erewrite io_bind_done;
    [|by (rewrite lift_read; cbn [w_heap py_getitem];
          rewrite (HframeS _ _ Hd), Hcat)].
  erewrite io_bind_done;
    [|by (rewrite lift_read; cbn [w_heap py_getitem];
          rewrite (HframeS _ _ Hc), Hsc)].
  erewrite io_bind_done;
    [|by (rewrite lift_read; cbn [w_heap py_len];
          rewrite (HframeS _ _ Hsl))].
  erewrite io_bind_done; [|reflexivity].
  unfold io_ret. cbn [w_heap w_stdout w_files fst].
  split; [done|]. split; [done|].
  unfold out2, out1. by rewrite <- !app_assoc.
Qed.

(** X13. On a valid document, when the write that [main] makes (of the
    filtered document, under the output path) fails,
    [save_filtered_controls] raises a plain [Exception] in its place and
    [main] reports it and returns 1, after the output of the filter:
    neither the confirmation of the write, nor the summary, nor the
    success line is printed. *)
Theorem main_write_failure args (w : world FS L) h1 doc cs stF r fs' l :
  read_json_file (input args) (w_files w) (w_heap w) = (h1, Parsed doc) →
  valid_document h1 doc = true →
  controls_of h1 doc = Some cs →
  extract_controls_by_id render doc (main_control_ids args) (State h1 [])
  = (stF, Ok r) →
  write_json_file r (output args) (st_heap stF) (w_files w) = (fs', Some l) →
  main' args w
  = (World (st_heap stF)
       (w_stdout w
        ++ [Line ("Loading NIST CSF file: " ++ input args);
            Line ("Extracting " ++ py_str_nat (length (main_control_ids args))
                  ++ " specified controls...")]
        ++ (Event <$> st_out stF)
        ++ [ErrorLine Exception])
       fs',
     Done 1).
Proof.
  intros Hread Hvalid Hcs Hrun0 Hwr.
  destruct (main_filter_steps args w h1 doc cs Hread Hvalid Hcs)
    as (stF0 & r0 & Hrun & Hkept & Hvalid' & Hsteps).
  rewrite Hrun0 in Hrun. injection Hrun as <- <-.
  unfold main. rewrite Hsteps. clear Hsteps.
  destruct w as [h out fs]. cbn [w_heap w_stdout w_files] in *.
  unfold try_except.
  erewrite io_bind_raise;
    [|by (unfold save_filtered_controls; cbn [w_heap w_stdout w_files];
          rewrite Hwr)].
  unfold io_bind, report, io_ret. cbn [w_heap w_stdout w_files].
  by rewrite <- !app_assoc.
Qed.

End ProgramProperties.

(** ** The further properties at the sample documents *)

Lemma request_is_a_set_sample :
  (∀ s, s ∈ ["A"; "C"] ↔ s ∈ ["C"; "A"; "A"])
  ∧ extract_controls_by_id no_render (VRef 1) ["A"; "C"] (State sample [])
    = extract_controls_by_id no_render (VRef 1) ["C"; "A"; "A"] (State sample []).
Proof.
  assert (Hsame : ∀ s, s ∈ ["A"; "C"] ↔ s ∈ ["C"; "A"; "A"]).
  { intros s. rewrite !list_elem_of_In. simpl. tauto. }
  split; [exact Hsame|].
  exact (request_is_a_set no_render (VRef 1) ["A"; "C"] ["C"; "A"; "A"]
           (State sample []) Hsame).
Defined.

Lemma empty_request_keeps_nothing_sample :
  valid_document sample (VRef 1) = true
  ∧ ∃ st' r,
      extract_controls_by_id no_render (VRef 1) [] (State sample []) = (st', Ok r)
      ∧ controls_of (st_heap st') r = Some []
      ∧ st_out st' = [].
Proof.
  split; [by vm_compute|].
  apply (empty_request_keeps_nothing no_render sample [] (VRef 1)); by vm_compute.
Defined.

Lemma larger_request_keeps_more_sample :
  valid_document sample (VRef 1) = true
  ∧ (∀ s, s ∈ ["C"] → s ∈ ["A"; "C"])
  ∧ ∃ st1 r1 kept st2 r2 kept',
      extract_controls_by_id no_render (VRef 1) ["C"] (State sample []) = (st1, Ok r1)
      ∧ controls_of (st_heap st1) r1 = Some kept
      ∧ extract_controls_by_id no_render (VRef 1) ["A"; "C"] (State sample [])
        = (st2, Ok r2)
      ∧ controls_of (st_heap st2) r2 = Some kept'
      ∧ sublist kept kept'.
Proof.
  assert (Hsub : ∀ s, s ∈ ["C"] → s ∈ ["A"; "C"]).
  { intros s. rewrite !list_elem_of_In. simpl. tauto. }
  split; [by vm_compute|]. split; [exact Hsub|].
  apply (larger_request_keeps_more no_render sample [] (VRef 1) ["C"] ["A"; "C"]);
    [by vm_compute|exact Hsub].
Defined.

Lemma successive_filters_intersect_sample :
  valid_document sample (VRef 1) = true
  ∧ controls_of sample (VRef 1) = Some sample_list
  ∧ ∃ st1 r1 st2 r2 st1' r1' st2' r2',
      extract_controls_by_id no_render (VRef 1) ["A"; "B"] (State sample [])
      = (st1, Ok r1)
      ∧ extract_controls_by_id no_render r1 ["B"; "C"] st1 = (st2, Ok r2)
      ∧ controls_of (st_heap st2) r2
        = Some (filter (λ v, selected sample ["A"; "B"] v
                             ∧ selected sample ["B"; "C"] v) sample_list)
      ∧ extract_controls_by_id no_render (VRef 1) ["B"; "C"] (State sample [])
        = (st1', Ok r1')
      ∧ extract_controls_by_id no_render r1' ["A"; "B"] st1' = (st2', Ok r2')
      ∧ controls_of (st_heap st2') r2' = controls_of (st_heap st2) r2.
Proof.
  split; [by vm_compute|]. split; [by vm_compute|].
  apply (successive_filters_intersect no_render sample [] (VRef 1)
           ["A"; "B"] ["B"; "C"] sample_list); by vm_compute.
Defined.

Lemma only_the_catalog_is_modified_sample :
  valid_document sample (VRef 1) = true
  ∧ dict_at sample (VRef 1) = Some {[ "catalog" := VRef 2 ]}
  ∧ ∃ st' r cm cm' fl,
      extract_controls_by_id no_render (VRef 1) ["B"] (State sample []) = (st', Ok r)
      ∧ sample !! 2%positive = Some (ODict cm)
      ∧ st_heap st' !! 2%positive = Some (ODict cm')
      ∧ cm' !! "securityControls" = Some (VRef fl)
      ∧ sample !! fl = None
      ∧ cm' ≠ cm
      ∧ ∀ l o, sample !! l = Some o → l ≠ 2%positive → st_heap st' !! l = Some o.
Proof.
  split; [by vm_compute|]. split; [by vm_compute|].
  apply (only_the_catalog_is_modified no_render sample [] (VRef 1) ["B"]
           {[ "catalog" := VRef 2 ]} 2%positive); by vm_compute.
Defined.

Lemma output_keeps_other_entries_sample :
  valid_document sample (VRef 1) = true
  ∧ dict_at sample (VRef 1) = Some {[ "catalog" := VRef 2 ]}
  ∧ catalog_of sample (VRef 1) = Some sample_catalog
  ∧ ∃ st' l cm',
      extract_controls_by_id no_render (VRef 1) ["B"] (State sample [])
      = (st', Ok (VRef l))
      ∧ sample !! l = None
      ∧ dict_at (st_heap st') (VRef l) = Some {[ "catalog" := VRef 2 ]}
      ∧ catalog_of (st_heap st') (VRef l) = Some cm'
      ∧ ∀ key, key ≠ "securityControls" → key ≠ "title" → key ≠ "description" →
          cm' !! key = sample_catalog !! key.
Proof.
  split; [by vm_compute|]. split; [by vm_compute|]. split; [by vm_compute|].
  apply (output_keeps_other_entries no_render sample [] (VRef 1) ["B"]
           {[ "catalog" := VRef 2 ]} sample_catalog); by vm_compute.
Defined.

Lemma summary_lists_every_control_sample :
  valid_document sample (VRef 1) = true
  ∧ controls_of sample (VRef 1) = Some sample_list
  ∧ ∃ h',
      print_control_summary no_render (list (string * value)) unit (VRef 1)
        (World sample [] [])
      = (World h' ([] ++ (Line <$> summary_lines no_render h' sample_list)) [],
         Done tt)
      ∧ length (summary_lines no_render h' sample_list) = 2 + 4 * length sample_list
      ∧ (∀ l o, sample !! l = Some o → h' !! l = Some o)
      ∧ (∀ v, v ∈ sample_list → dict_at h' v = dict_at sample v).
Proof.
  split; [by vm_compute|]. split; [by vm_compute|].
  apply (summary_lists_every_control no_render (list (string * value)) unit
           (World sample [] []) (VRef 1) sample_list); by vm_compute.
Defined.

Lemma summary_without_controls_sample :
  mapping_document sample_no_controls (VRef 1) = true
  ∧ lacks_controls sample_no_controls (VRef 1) = true
  ∧ (∃ h',
       extract_controls_by_id no_render (VRef 1) ["A"] (State sample_no_controls [])
       = (State h' [], Err ValueError))
  ∧ ∃ h',
      print_control_summary no_render (list (string * value)) unit (VRef 1)
        (World sample_no_controls [] [])
      = (World h' ([] ++ [Line (newline ++ "Extracted 0 controls:");
                          Line (dashes 80)]) [],
         Done tt).
Proof.
  split; [by vm_compute|]. split; [by vm_compute|].
  apply (summary_without_controls no_render (list (string * value)) unit
           (World sample_no_controls [] []) (VRef 1) ["A"]); by vm_compute.
Defined.

(** Outside that shape the two can both fail, each in its way: on
    [{"catalog": "abc"}] the filter raises [ValueError] (the string does
    not contain the key) and the summary raises [AttributeError] (a
    string has no [get]). *)
Example string_catalog_summary :
  (extract_controls_by_id no_render (VRef 1) ["A"]
     (State sample_string_catalog [])).2 = Err ValueError
  ∧ (print_control_summary no_render (list (string * value)) unit (VRef 1)
       (World sample_string_catalog [] [])).2 = Raise (Py AttributeError).
Proof. by vm_compute. Qed.

Lemma main_load_failure_sample :
  missing_reader (input sample_args) [] ∅ = (∅, NotFound)
  ∧ ∃ e,
      main no_render _ _ missing_reader recording_writer sample_args empty_world
      = (World ∅
           ([] ++ [Line ("Loading NIST CSF file: " ++ input sample_args);
                   ErrorLine e])
           [],
         Done 1)
      ∧ (@NotFound unit = NotFound → e = FileNotFoundError)
      ∧ (@NotFound unit = Undecodable → e = Py TypeError)
      ∧ (∀ l, @NotFound unit = Failed l → e = Other l).
Proof.
  split; [reflexivity|].
  apply (main_load_failure no_render _ _ missing_reader recording_writer
           sample_args empty_world ∅ NotFound); [reflexivity|].
  intros v. discriminate.
Defined.

Lemma main_structure_error_sample :
  sample_reader sample_no_controls (VRef 1) (input sample_args) [] ∅
  = (sample_no_controls, Parsed (VRef 1))
  ∧ mapping_document sample_no_controls (VRef 1) = true
  ∧ lacks_controls sample_no_controls (VRef 1) = true
  ∧ ∃ h',
      main no_render _ _ (sample_reader sample_no_controls (VRef 1))
        recording_writer sample_args empty_world
      = (World h'
           ([] ++ [Line ("Loading NIST CSF file: " ++ input sample_args);
                   Line ("Extracting "
                         ++ py_str_nat (length (main_control_ids sample_args))
                         ++ " specified controls...");
                   ErrorLine (Py ValueError)])
           [],
         Done 1).
Proof.
  split; [reflexivity|]. split; [by vm_compute|]. split; [by vm_compute|].
  apply (main_structure_error no_render _ _
           (sample_reader sample_no_controls (VRef 1)) recording_writer
           sample_args empty_world sample_no_controls (VRef 1));
    [reflexivity | by vm_compute | by vm_compute].
Defined.

Lemma main_success_sample :
  let ids := main_control_ids sample_args in
  let stF := (extract_controls_by_id no_render (VRef 1) ids (State sample [])).1 in
  let r := VRef 10 in
  let fs' := [(output sample_args, r)] in
  let kept := filter (selected sample ids) sample_list in
  sample_reader sample (VRef 1) (input sample_args) [] ∅
  = (sample, Parsed (VRef 1))
  ∧ valid_document sample (VRef 1) = true
  ∧ controls_of sample (VRef 1) = Some sample_list
  ∧ extract_controls_by_id no_render (VRef 1) ids (State sample []) = (stF, Ok r)
  ∧ recording_writer r (output sample_args) (st_heap stF) [] = (fs', None)
  ∧ ∃ w',
      controls_of (st_heap stF) r = Some kept
      ∧ main no_render _ _ (sample_reader sample (VRef 1)) recording_writer
          sample_args empty_world
        = (w', Done 0)
      ∧ w_files w' = fs'
      ∧ w_stdout w'
        = ([] ++ [Line ("Loading NIST CSF file: " ++ input sample_args);
                  Line ("Extracting " ++ py_str_nat (length ids)
                        ++ " specified controls...")]
           ++ (Event <$> st_out stF)
           ++ [Line ("Filtered controls saved to: " ++ output sample_args)]
           ++ (if summary sample_args
               then Line <$> summary_lines no_render (w_heap w') kept
               else [])
           ++ [Line (newline ++ "Successfully extracted "
                     ++ py_str_nat (length kept) ++ " controls")])%list.
Proof.
  cbn zeta.
  split; [reflexivity|]. split; [by vm_compute|]. split; [by vm_compute|].
  split; [by vm_compute|]. split; [reflexivity|].
  apply (main_success no_render _ _ (sample_reader sample (VRef 1))
           recording_writer sample_args empty_world sample (VRef 1) sample_list);
    [reflexivity | by vm_compute | by vm_compute | by vm_compute | reflexivity].
Defined.

Lemma main_write_failure_sample :
  let ids := main_control_ids sample_args in
  let stF := (extract_controls_by_id no_render (VRef 1) ids (State sample [])).1 in
  let r := VRef 10 in
  sample_reader sample (VRef 1) (input sample_args) [] ∅
  = (sample, Parsed (VRef 1))
  ∧ valid_document sample (VRef 1) = true
  ∧ controls_of sample (VRef 1) = Some sample_list
  ∧ extract_controls_by_id no_render (VRef 1) ids (State sample []) = (stF, Ok r)
  ∧ failing_writer r (output sample_args) (st_heap stF) [] = ([], Some tt)
  ∧ main no_render _ _ (sample_reader sample (VRef 1)) failing_writer
      sample_args empty_world
    = (World (st_heap stF)
         ([] ++ [Line ("Loading NIST CSF file: " ++ input sample_args);
                 Line ("Extracting " ++ py_str_nat (length ids)
                       ++ " specified controls...")]
          ++ (Event <$> st_out stF)
          ++ [ErrorLine Exception])
         [],
       Done 1).
Proof.
  cbn zeta.
  split; [reflexivity|]. split; [by vm_compute|]. split; [by vm_compute|].
  split; [by vm_compute|]. split; [reflexivity|].
  apply (main_write_failure no_render _ _ (sample_reader sample (VRef 1))
           failing_writer sample_args empty_world sample (VRef 1) sample_list
           _ (VRef 10) [] tt);
    [reflexivity | by vm_compute | by vm_compute | by vm_compute | reflexivity].
Defined.

Lemma main_zero_means_written_sample :
  let run := main no_render _ _ (sample_reader sample (VRef 1)) recording_writer
               sample_args empty_world in
  run = (run.1, Done 0)
  ∧ ∃ h1 doc stF r,
      sample_reader sample (VRef 1) (input sample_args) (w_files empty_world)
        (w_heap empty_world)
      = (h1, Parsed doc)
      ∧ extract_controls_by_id no_render doc (main_control_ids sample_args)
          (State h1 [])
        = (stF, Ok r)
      ∧ recording_writer r (output sample_args) (st_heap stF)
          (w_files empty_world)
        = (w_files run.1, None)
      ∧ ∃ pre n,
          w_stdout run.1
          = (pre ++ [Line (newline ++ "Successfully extracted "
                           ++ py_str_nat n ++ " controls")])%list.
Proof.
  cbn zeta. split; [by vm_compute|].
  apply (main_zero_means_written no_render _ _ (sample_reader sample (VRef 1))
           recording_writer sample_args empty_world).
  by vm_compute.
Defined.

(** The console of a whole run on the sample: two progress lines, the
    warning, the confirmation, the summary of the three controls kept,
    the success line; the writer received the filtered document. *)
Example main_sample_run :
  let run := main no_render _ _ (sample_reader sample (VRef 1)) recording_writer
               sample_args empty_world in
  run.2 = Done 0
  ∧ w_files run.1 = [("nist-csf-2-filtered.json", VRef 10)]
  ∧ w_stdout run.1
    = [ Line "Loading NIST CSF file: nist-csf-2.json";
        Line "Extracting 3 specified controls...";
        Event (Warning {[ "X" ]});
        Line "Filtered controls saved to: nist-csf-2-filtered.json";
        Line (newline ++ "Extracted 3 controls:");
        Line (dashes 80);
        Line "ID: A"; Line "Family: Unknown family"; Line "Title: No title";
        Line (dashes 80);
        Line "ID: C"; Line "Family: Unknown family"; Line "Title: No title";
        Line (dashes 80);
        Line "ID: A"; Line "Family: Unknown family"; Line "Title: No title";
        Line (dashes 80);
        Line (newline ++ "Successfully extracted 3 controls") ].
Proof. by vm_compute. Qed.
